(** * SafeHaven: the gesture classifier, the gesture history, the voice
  keyword spotter and the report log.

  Shallow embedding of
    - [src/components/GestureRecognition.tsx]: [recognizeGesture],
      [getCurrentGestures], the per-hand body of [onResults];
    - [src/pages/Index.tsx]: [createReport], [processVoiceTranscript].

  JavaScript numbers are IEEE 754 binary64 values: they are modelled by
  Rocq's primitive floats, whose operations compute the same correctly
  rounded results.  Wall-clock readings ([Date.now()], [new Date()]) are
  integers, in milliseconds. *)

From Stdlib Require Import ZArith Lia PrimFloat Ascii.
From Stdlib Require Import DecimalString DecimalZ.
From stdpp Require Import base option list strings gmap.

Set Warnings "-inexact-float".

(* ===================================================================== *)
(** ** JavaScript primitives used by the sources *)
(* ===================================================================== *)

Module Js.

Local Open Scope float_scope.

(** [Math.pow(v, 2)].  ECMAScript leaves [Math.pow] implementation
    approximated; a square is taken to be one correctly rounded product. *)
Definition Math_pow_2 (v : float) : float := v * v.

Definition Math_sqrt (v : float) : float := PrimFloat.sqrt v.

(** [Math.min(a, b)]: NaN if either is NaN, and -0 below +0. *)
Definition Math_min (a b : float) : float :=
  if is_nan a || is_nan b then nan
  else if a <? b then a
  else if b <? a then b
  else if is_zero a && get_sign b then b
  else a.

(** Truthiness of a string: every string but the empty one. *)
Definition truthy (s : string) : bool :=
  match s with
  | EmptyString => false
  | String _ _ => true
  end.

(** [s.includes(sub)]: [sub] occurs in [s] at some position. *)
Fixpoint includes (s sub : string) : bool :=
  String.prefix sub s
  || match s with
     | EmptyString => false
     | String _ rest => includes rest sub
     end.

(** [n.toString()] for an integral number below 1e21: its decimal digits,
    with a leading minus sign when negative. *)
Definition toString (n : Z) : string :=
  NilEmpty.string_of_int (Z.to_int n).

(** [arr.join(sep)] on an array of strings. *)
Fixpoint join (sep : string) (arr : list string) : string :=
  match arr with
  | [] => ""
  | [s] => s
  | s :: rest => s +:+ sep +:+ join sep rest
  end.

End Js.

(* ===================================================================== *)
(** ** GestureRecognition.tsx: the classifier *)
(* ===================================================================== *)

Module Classifier.

Import Js.
Local Open Scope float_scope.

(** [interface HandLandmarks { x: number; y: number }] *)
Record HandLandmarks : Type := mkPoint { x : float; y : float }.

#[export] Instance HandLandmarks_inhabited : Inhabited HandLandmarks :=
  populate (mkPoint 0 0).

(** The object [{ type: gestureType, confidence }] the classifier returns. *)
Record Recognized : Type := mkRecognized { type : string; confidence : float }.

(** The helper [isFingerExtended] (lines 191-198). *)
Definition isFingerExtended (tip pip mcp : HandLandmarks) : bool :=
  let tipToPip :=
    Math_sqrt (Math_pow_2 (x tip - x pip) + Math_pow_2 (y tip - y pip)) in
  let pipToMcp :=
    Math_sqrt (Math_pow_2 (x pip - x mcp) + Math_pow_2 (y pip - y mcp)) in
  let tipToMcp :=
    Math_sqrt (Math_pow_2 (x tip - x mcp) + Math_pow_2 (y tip - y mcp)) in
  (tipToPip + pipToMcp) * 0.8 <? tipToMcp.

(** The helper [isThumbExtended] (lines 201-205); the three points it
    closes over are its arguments here. *)
Definition isThumbExtended (thumbTip thumbMcp wrist : HandLandmarks) : bool :=
  let thumbToWrist :=
    Math_sqrt (Math_pow_2 (x thumbTip - x wrist)
               + Math_pow_2 (y thumbTip - y wrist)) in
  let thumbMcpToWrist :=
    Math_sqrt (Math_pow_2 (x thumbMcp - x wrist)
               + Math_pow_2 (y thumbMcp - y wrist)) in
  thumbMcpToWrist * 1.2 <? thumbToWrist.

(** Lines 217-239: the chain of patterns, from the initial
    [gestureType = ''], [confidence = 0.7]. *)
Definition gesturePattern
    (thumbExtended indexExtended middleExtended ringExtended
     pinkyExtended : bool) : string * float :=
  if thumbExtended && negb indexExtended && negb middleExtended
     && negb ringExtended && negb pinkyExtended
  then ("thumb_up", 0.9)
  else if negb thumbExtended && indexExtended && middleExtended
          && negb ringExtended && negb pinkyExtended
  then ("peace_sign", 0.9)
  else if negb thumbExtended && indexExtended && negb middleExtended
          && negb ringExtended && negb pinkyExtended
  then ("pointing", 0.85)
  else if negb thumbExtended && negb indexExtended && negb middleExtended
          && negb ringExtended && negb pinkyExtended
  then ("fist", 0.9)
  else if thumbExtended && indexExtended && middleExtended
          && ringExtended && pinkyExtended
  then ("open_palm", 0.8)
  else if thumbExtended && indexExtended && negb middleExtended
          && negb ringExtended && negb pinkyExtended
  then ("ok_sign", 0.8)
  else ("", 0.7).

(** Lines 243-259: the body of [if (gestureType) { ... }]. *)
Definition adjustConfidence
    (confidence : float) (extendedCount : nat)
    (wrist indexMcp middleMcp ringMcp pinkyMcp : HandLandmarks) : float :=
  let confidence :=
    if (extendedCount =? 1)%nat || (extendedCount =? 2)%nat
       || (extendedCount =? 5)%nat
    then confidence + 0.05 else confidence in
  let palmCenter :=
    mkPoint ((x indexMcp + x middleMcp + x ringMcp + x pinkyMcp) / 4)
            ((y indexMcp + y middleMcp + y ringMcp + y pinkyMcp) / 4) in
  let handSize :=
    Math_sqrt (Math_pow_2 (x wrist - x palmCenter)
               + Math_pow_2 (y wrist - y palmCenter)) in
  let confidence :=
    if (0.15 <? handSize) && (handSize <? 0.4)
    then confidence + 0.05 else confidence in
  Math_min confidence 0.95.

(** [recognizeGesture] (lines 170-263).  Below the guard every index read
    is in range (see [key_landmarks_defined]), so the reads are total
    lookups. *)
Definition recognizeGesture (landmarks : list HandLandmarks)
    : option Recognized :=
  if (length landmarks <? 21)%nat then None else
  let wrist := landmarks !!! 0%nat in
  let thumbTip := landmarks !!! 4%nat in
  let thumbMcp := landmarks !!! 2%nat in
  let indexTip := landmarks !!! 8%nat in
  let indexPip := landmarks !!! 6%nat in
  let indexMcp := landmarks !!! 5%nat in
  let middleTip := landmarks !!! 12%nat in
  let middlePip := landmarks !!! 10%nat in
  let middleMcp := landmarks !!! 9%nat in
  let ringTip := landmarks !!! 16%nat in
  let ringPip := landmarks !!! 14%nat in
  let ringMcp := landmarks !!! 13%nat in
  let pinkyTip := landmarks !!! 20%nat in
  let pinkyPip := landmarks !!! 18%nat in
  let pinkyMcp := landmarks !!! 17%nat in
  let thumbExtended := isThumbExtended thumbTip thumbMcp wrist in
  let indexExtended := isFingerExtended indexTip indexPip indexMcp in
  let middleExtended := isFingerExtended middleTip middlePip middleMcp in
  let ringExtended := isFingerExtended ringTip ringPip ringMcp in
  let pinkyExtended := isFingerExtended pinkyTip pinkyPip pinkyMcp in
  let extendedCount :=
    length (filter (fun b : bool => b = true)
              [thumbExtended; indexExtended; middleExtended;
               ringExtended; pinkyExtended]) in
  let '(gestureType, confidence) :=
    gesturePattern thumbExtended indexExtended middleExtended
                   ringExtended pinkyExtended in
  let confidence :=
    if truthy gestureType
    then adjustConfidence confidence extendedCount
           wrist indexMcp middleMcp ringMcp pinkyMcp
    else confidence in
  if truthy gestureType
  then Some (mkRecognized gestureType confidence)
  else None.

End Classifier.

(* ===================================================================== *)
(** ** GestureRecognition.tsx: label tables, history and [onResults] *)
(* ===================================================================== *)

Module Session.

Import Js.
Local Open Scope float_scope.

(** ['alphabet' | 'word'] *)
Inductive Mode : Type := alphabet | word.

#[export] Instance Mode_eq_dec : EqDecision Mode.
Proof. solve_decision. Defined.

(** [interface GestureData] *)
Record GestureData : Type := mkGestureData {
  gesture : string;
  confidence : float;
  timestamp : Z;
  mode : Mode
}.

(** The pieces of component state the handler writes, with [mode]. *)
Module State.
Record t : Type := mk {
  currentText : string;
  mode : Mode;
  history : list GestureData;
  confidence : float
}.
End State.

(** [useState] initial values. *)
Definition initial : State.t := State.mk "" alphabet [] 0.

Definition alphabetGestures : gmap string string :=
  list_to_map
    [("thumb_up", "A"); ("peace_sign", "V"); ("pointing", "I");
     ("fist", "B"); ("open_palm", "STOP")].

Definition wordGestures : gmap string string :=
  list_to_map
    [("thumb_up", "YES"); ("peace_sign", "PEACE"); ("pointing", "I");
     ("fist", "NO"); ("open_palm", "HELP"); ("ok_sign", "OK")].

(** [getCurrentGestures]; the [mode] it closes over is its argument. *)
Definition getCurrentGestures (mode : Mode) : gmap string string :=
  if decide (mode = alphabet) then alphabetGestures else wordGestures.

(** The state setters. *)
Definition setMode (m : Mode) (st : State.t) : State.t :=
  State.mk (State.currentText st) m (State.history st) (State.confidence st).

Definition setCurrentText (s : string) (st : State.t) : State.t :=
  State.mk s (State.mode st) (State.history st) (State.confidence st).

Definition setConfidence (c : float) (st : State.t) : State.t :=
  State.mk (State.currentText st) (State.mode st) (State.history st) c.

Definition setHistory (f : list GestureData -> list GestureData)
    (st : State.t) : State.t :=
  State.mk (State.currentText st) (State.mode st) (f (State.history st))
           (State.confidence st).

(** The updater passed to [setHistory] (lines 117-126).  [now] is the
    reading of [new Date().getTime()] taken inside the updater. *)
Definition historyUpdater (gestureText : string)
    (newGestureData : GestureData) (now : Z)
    (prev : list GestureData) : list GestureData :=
  match last prev with
  | Some lastEntry =>
      if String.eqb (gesture lastEntry) gestureText
         && (now - timestamp lastEntry <? 1000)%Z
      then prev
      else prev ++ [newGestureData]
  | None => prev ++ [newGestureData]
  end.

(** One iteration of the loop of [onResults] (lines 101-128), drawing
    apart.  [mode] is the value the callback closed over; [created] is the
    reading of [new Date()] stored in the new entry and [now] the one
    taken by the updater. *)
Definition onHand (mode : Mode) (st : State.t)
    (hand : list Classifier.HandLandmarks * Z * Z) : State.t :=
  let '(landmarks, created, now) := hand in
  match Classifier.recognizeGesture landmarks with
  | Some gesture =>
      match getCurrentGestures mode !! Classifier.type gesture with
      | Some gestureText =>
          if truthy gestureText && (0.7 <? Classifier.confidence gesture)
          then
            let st := setCurrentText gestureText st in
            let st := setConfidence (Classifier.confidence gesture) st in
            let newGestureData :=
              mkGestureData gestureText (Classifier.confidence gesture)
                            created mode in
            setHistory (historyUpdater gestureText newGestureData now) st
          else st
      | None => st
      end
  | None => st
  end.

(** [onResults] once the canvas is available: every detected hand in
    turn; nothing when [multiHandLandmarks] is absent. *)
Definition onResults (mode : Mode)
    (multiHandLandmarks :
       option (list (list Classifier.HandLandmarks * Z * Z)))
    (st : State.t) : State.t :=
  match multiHandLandmarks with
  | Some hands => foldl (onHand mode) st hands
  | None => st
  end.

(** [clearHistory], the notification apart. *)
Definition clearHistory (st : State.t) : State.t :=
  setCurrentText "" (setHistory (fun _ => []) st).

(** [stopCamera] on the state modelled here: the media stream and
    [isCamera] apart. *)
Definition stopCamera (st : State.t) : State.t :=
  setConfidence 0 (setCurrentText "" st).

(** [textToCopy] of [copyToClipboard]. *)
Definition textToCopy (history : list GestureData) : string :=
  join " " (gesture <$> history).

(** The entries of the history panel: [history.slice(-10).reverse()]. *)
Definition recentHistory (history : list GestureData) : list GestureData :=
  reverse (drop (length history - 10) history).

(** What can happen to the component: a frame delivered to a handler that
    holds a mode, or one of the buttons. *)
Inductive Event : Type :=
  | Frame (held : Mode)
      (multiHandLandmarks :
         option (list (list Classifier.HandLandmarks * Z * Z)))
  | SetMode (m : Mode)
  | ClearHistory
  | StopCamera.

Definition step (st : State.t) (ev : Event) : State.t :=
  match ev with
  | Frame held multiHandLandmarks => onResults held multiHandLandmarks st
  | SetMode m => setMode m st
  | ClearHistory => clearHistory st
  | StopCamera => stopCamera st
  end.

Definition runEvents (evs : list Event) (st : State.t) : State.t :=
  foldl step st evs.

End Session.

(* ===================================================================== *)
(** ** Index.tsx: the report log *)
(* ===================================================================== *)

Module Reports.

Import Js.

Inductive ReportType : Type := SOS | Voice | Gesture.
Inductive Status : Type := pending | sent | failed.

#[export] Instance Status_eq_dec : EqDecision Status.
Proof. solve_decision. Defined.

Record LatLng : Type := mkLatLng { lat : float; lng : float }.

(** [interface EmergencyReport] *)
Record EmergencyReport : Type := mkReport {
  id : string;
  type : ReportType;
  message : string;
  location : option LatLng;
  timestamp : Z;
  status : Status
}.

(** [location.coords] of the browser's [GeolocationPosition]. *)
Record Coords : Type := mkCoords { latitude : float; longitude : float }.

(** What [createReport] reads besides its arguments: the state variables
    [isOnline] and [location] it closes over, and the clock, once for
    [Date.now()] and once for [new Date()]. *)
Record Env : Type := mkEnv {
  isOnline : bool;
  geolocation : option Coords;
  dateNow : Z;
  newDate : Z
}.

(** [createReport] (lines 71-83): the new report and the log after
    [setReports(prev => [...prev, newReport])]. *)
Definition createReport (env : Env) (type : ReportType) (message : string)
    (reports : list EmergencyReport)
    : EmergencyReport * list EmergencyReport :=
  let newReport :=
    mkReport
      (toString (dateNow env))
      type
      message
      (match geolocation env with
       | Some coords => Some (mkLatLng (latitude coords) (longitude coords))
       | None => None
       end)
      (newDate env)
      (if isOnline env then sent else pending) in
  (newReport, reports ++ [newReport]).

(** [handleSOS], notifications apart. *)
Definition handleSOS (env : Env) (reports : list EmergencyReport)
    : list EmergencyReport :=
  snd (createReport env SOS "Emergency SOS activated" reports).

(** A call of [createReport] as the log sees it. *)
Record Call : Type := mkCall {
  env : Env;
  kind : ReportType;
  text : string
}.

Definition append (reports : list EmergencyReport) (c : Call)
    : list EmergencyReport :=
  snd (createReport (env c) (kind c) (text c) reports).

(** The log after a sequence of calls. *)
Definition run (calls : list Call) (reports : list EmergencyReport)
    : list EmergencyReport :=
  foldl append reports calls.

End Reports.

(* ===================================================================== *)
(** ** Index.tsx: the voice keyword spotter *)
(* ===================================================================== *)

Module Voice.

Import Js.

Inductive Severity : Type := high | critical.

#[export] Instance Severity_eq_dec : EqDecision Severity.
Proof. solve_decision. Defined.

Record Info : Type := mkInfo {
  service : string;
  number : string;
  severity : Severity
}.

(** [{ keyword, ...info }] *)
Record Detected : Type := mkDetected { keyword : string; info : Info }.

(** The object literal [emergencyKeywords], as [Object.entries] lists it:
    string keys in insertion order. *)
Definition emergencyKeywords : list (string * Info) :=
  [ ("help", mkInfo "Emergency Services" "108" high);
    ("emergency", mkInfo "Emergency Services" "108" high);
    ("fire", mkInfo "Fire Department" "101" critical);
    ("police", mkInfo "Police" "100" high);
    ("ambulance", mkInfo "Medical Emergency" "108" critical);
    ("danger", mkInfo "Emergency Services" "108" high);
    ("attack", mkInfo "Police" "100" critical);
    ("accident", mkInfo "Medical Emergency" "108" critical);
    ("medical", mkInfo "Medical Emergency" "108" high);
    ("hurt", mkInfo "Medical Emergency" "108" high);
    ("bleeding", mkInfo "Medical Emergency" "108" critical);
    ("madad", mkInfo "Emergency Services" "108" high);
    ("bachaiye", mkInfo "Emergency Services" "108" high);
    ("aag", mkInfo "Fire Department" "101" critical);
    ("police_hindi", mkInfo "Police" "100" high);
    ("ambulance_hindi", mkInfo "Medical Emergency" "108" critical);
    ("khatre", mkInfo "Emergency Services" "108" high);
    ("hamla", mkInfo "Police" "100" critical);
    ("durghatna", mkInfo "Medical Emergency" "108" critical) ].

(** The body of the [for] loop (lines 235-240) on the running
    [detectedKeyword]. *)
Definition scanEntry (transcript : string) (detectedKeyword : option Detected)
    (entry : string * Info) : option Detected :=
  let '(keyword, info) := entry in
  if includes transcript keyword then
    if negb (bool_decide (is_Some detectedKeyword))
       || bool_decide (severity info = critical)
    then Some (mkDetected keyword info)
    else detectedKeyword
  else detectedKeyword.

(** The loop over a table, from [detectedKeyword = null]. *)
Definition scan (table : list (string * Info)) (transcript : string)
    : option Detected :=
  foldl (scanEntry transcript) None table.

(** [detectedKeyword] after the loop of [processVoiceTranscript]. *)
Definition detectedKeyword (transcript : string) : option Detected :=
  scan emergencyKeywords transcript.

(** The message of the voice report: the keyword between double quotes,
    then the service. *)
Definition voiceMessage (d : Detected) : string :=
  "Voice detected: " +:+ String "034"%char (keyword d)
    +:+ String "034"%char (" - " +:+ service (info d)).

(** [processVoiceTranscript], notifications and speech apart: the match,
    the log, and whether the SOS flow was scheduled. *)
Definition processVoiceTranscript (env : Reports.Env) (transcript : string)
    (reports : list Reports.EmergencyReport)
    : option Detected * list Reports.EmergencyReport * bool :=
  match detectedKeyword transcript with
  | Some d =>
      (Some d,
       snd (Reports.createReport env Reports.Voice (voiceMessage d) reports),
       bool_decide (severity (info d) = critical))
  | None => (None, reports, false)
  end.

(** The array [emergencyKeywords] of [processVoiceData]. *)
Definition fallbackKeywords : list string :=
  ["help"; "emergency"; "fire"; "police"; "ambulance"; "danger"].

(** [processVoiceData], logging apart.  [drawn] is the value of
    [Math.floor(Math.random() * emergencyKeywords.length)]; an index outside
    the array reads [undefined], on which [transcript.includes] throws:
    [None]. *)
Definition processVoiceData (env : Reports.Env) (drawn : nat)
    (reports : list Reports.EmergencyReport)
    : option (option Detected * list Reports.EmergencyReport * bool) :=
  match fallbackKeywords !! drawn with
  | Some detected => Some (processVoiceTranscript env detected reports)
  | None => None
  end.

End Voice.

(* ===================================================================== *)
(** ** The specification's wording, to compare the code with *)
(* ===================================================================== *)

Module Spec.

Import Js Classifier.
Local Open Scope float_scope.

(** The five extension booleans: thumb, index, middle, ring, pinky. *)
Definition Fingers : Type := bool * bool * bool * bool * bool.

(** The booleans of a Hand, by the anatomical indices: 0 wrist, 2 thumb
    base, 4 thumb tip, then tip, middle joint and base of each finger. *)
Definition fingerStates (hand : list HandLandmarks) : Fingers :=
  (isThumbExtended (hand !!! 4%nat) (hand !!! 2%nat) (hand !!! 0%nat),
   isFingerExtended (hand !!! 8%nat) (hand !!! 6%nat) (hand !!! 5%nat),
   isFingerExtended (hand !!! 12%nat) (hand !!! 10%nat) (hand !!! 9%nat),
   isFingerExtended (hand !!! 16%nat) (hand !!! 14%nat) (hand !!! 13%nat),
   isFingerExtended (hand !!! 20%nat) (hand !!! 18%nat) (hand !!! 17%nat)).

Definition extendedCount (f : Fingers) : nat :=
  let '(t, i, m, r, p) := f in
  Nat.b2n t + Nat.b2n i + Nat.b2n m + Nat.b2n r + Nat.b2n p.

(** The fixed, ordered pattern table: booleans, gesture type, base
    confidence. *)
Definition patternTable : list (Fingers * (string * float)) :=
  [ ((true, false, false, false, false), ("thumb_up", 0.9));
    ((false, true, true, false, false), ("peace_sign", 0.9));
    ((false, true, false, false, false), ("pointing", 0.85));
    ((false, false, false, false, false), ("fist", 0.9));
    ((true, true, true, true, true), ("open_palm", 0.8));
    ((true, true, false, false, false), ("ok_sign", 0.8)) ].

(** First matching row; none when no row matches. *)
Definition lookupPattern (f : Fingers) : option (string * float) :=
  snd <$> head (filter (fun row => row.1 = f) patternTable).

(** Euclidean distance. *)
Definition distance (p q : HandLandmarks) : float :=
  PrimFloat.sqrt ((x p - x q) * (x p - x q) + (y p - y q) * (y p - y q)).

(** Palm center: the arithmetic mean of the four non-thumb MCP points. *)
Definition palmCenter (hand : list HandLandmarks) : HandLandmarks :=
  let a := hand !!! 5%nat in
  let b := hand !!! 9%nat in
  let c := hand !!! 13%nat in
  let d := hand !!! 17%nat in
  mkPoint ((x a + x b + x c + x d) / 4) ((y a + y b + y c + y d) / 4).

(** Hand scale: distance from the wrist to the palm center. *)
Definition handScale (hand : list HandLandmarks) : float :=
  distance (hand !!! 0%nat) (palmCenter hand).

Definition countBonus (n : nat) (c : float) : float :=
  if bool_decide (n = 1%nat \/ n = 2%nat \/ n = 5%nat) then c + 0.05 else c.

(** The adjustment with the scale bonus on the closed interval
    [0.15, 0.4], as the specification words it. *)
Definition adjustedClosed (base : float) (n : nat) (scale : float) : float :=
  let c := countBonus n base in
  let c := if (0.15 <=? scale) && (scale <=? 0.4) then c + 0.05 else c in
  Math_min c 0.95.

(** The adjustment with the scale bonus strictly inside (0.15, 0.4). *)
Definition adjustedOpen (base : float) (n : nat) (scale : float) : float :=
  let c := countBonus n base in
  let c := if (0.15 <? scale) && (scale <? 0.4) then c + 0.05 else c in
  Math_min c 0.95.

(** The confidence adjustment, stated with a given scale bonus rule, for
    every Hand on which the classifier returns a result. *)
Definition adjustmentRule (adjusted : float -> nat -> float -> float) : Prop :=
  forall (hand : list HandLandmarks) (g : Recognized),
    recognizeGesture hand = Some g ->
    exists base : float,
      lookupPattern (fingerStates hand) = Some (type g, base)
      /\ confidence g
         = adjusted base (extendedCount (fingerStates hand)) (handScale hand).

(** What the classifier can return: each gesture type with the values its
    confidence takes. *)
Definition outcomes : list (string * float) :=
  [ ("thumb_up", 0.95); ("peace_sign", 0.95);
    ("pointing", 0.85 + 0.05); ("pointing", 0.95);
    ("fist", 0.9); ("fist", 0.95);
    ("open_palm", 0.8 + 0.05); ("open_palm", 0.8 + 0.05 + 0.05);
    ("ok_sign", 0.8 + 0.05); ("ok_sign", 0.8 + 0.05 + 0.05) ].

(** The most recently appended event has the identical label and its
    timestamp is within 1000 ms of [now]. *)
Definition suppressed (prev : list Session.GestureData) (label : string)
    (now : Z) : Prop :=
  exists lastEntry : Session.GestureData,
    last prev = Some lastEntry
    /\ Session.gesture lastEntry = label
    /\ (now - Session.timestamp lastEntry < 1000)%Z.

(** An entry made by a handler that holds mode [m]: it records [m] and its
    label is an entry of the label table of [m]. *)
Definition madeIn (m : Session.Mode) (e : Session.GestureData) : Prop :=
  Session.mode e = m
  /\ exists ty : string,
       Session.getCurrentGestures m !! ty = Some (Session.gesture e).

Import Voice.

(** The candidates of a transcript, in table order. *)
Definition candidates (table : list (string * Info)) (transcript : string)
    : list Detected :=
  (fun e => mkDetected e.1 e.2)
    <$> filter (fun e => includes transcript e.1 = true) table.

Definition criticalOnes (ds : list Detected) : list Detected :=
  filter (fun d => severity (info d) = critical) ds.

(** Any critical candidate beats the others; among several critical ones
    and among several others the earliest wins. *)
Definition earliestWins (table : list (string * Info)) (transcript : string)
    : option Detected :=
  match head (criticalOnes (candidates table transcript)) with
  | Some d => Some d
  | None => head (candidates table transcript)
  end.

(** Any critical candidate beats the others; among several critical ones
    the latest wins, among the others the earliest. *)
Definition latestCriticalWins (table : list (string * Info))
    (transcript : string) : option Detected :=
  match last (criticalOnes (candidates table transcript)) with
  | Some d => Some d
  | None => head (candidates table transcript)
  end.

End Spec.

(* ===================================================================== *)
(** ** Invariants and frames of the component *)
(* ===================================================================== *)

Module Inv.

Import Session.

(** The landmark indices [recognizeGesture] reads. *)
Definition keyIndices : list nat :=
  [0; 2; 4; 5; 6; 8; 9; 10; 12; 13; 14; 16; 17; 18; 20]%nat.

(** The text shown is empty or the label of the latest history entry. *)
Definition shownIsLatest (st : State.t) : Prop :=
  State.currentText st = ""
  \/ exists e : GestureData,
       last (State.history st) = Some e /\ gesture e = State.currentText st.

(** Neighbouring entries with the same label are at least 1000 ms apart. *)
Definition spaced (history : list GestureData) : Prop :=
  forall (i : nat) (e1 e2 : GestureData),
    history !! i = Some e1 -> history !! S i = Some e2 ->
    gesture e1 = gesture e2 ->
    (1000 <= timestamp e2 - timestamp e1)%Z.

(** Every hand of a frame is stamped with the clock reading its updater
    compares with. *)
Definition oneReading (ev : Event) : Prop :=
  match ev with
  | Frame _ (Some hands) => Forall (fun hand => hand.1.2 = hand.2) hands
  | _ => True
  end.

(** No keyword of a table occurs in the transcript. *)
Definition silent (table : list (string * Voice.Info)) (transcript : string)
    : Prop :=
  Forall (fun entry => Js.includes transcript entry.1 = false) table.

(** Some keyword of severity critical of a table occurs in the
    transcript. *)
Definition alarming (table : list (string * Voice.Info)) (transcript : string)
    : Prop :=
  Exists (fun entry => Js.includes transcript entry.1 = true
                       /\ Voice.severity entry.2 = Voice.critical) table.

(** A history entry as the handler makes them: its label is an entry of
    the label table of the mode it records, and its confidence lies
    between 0.85 and 0.95. *)
Definition wellFormed (e : GestureData) : Prop :=
  Spec.madeIn (mode e) e
  /\ PrimFloat.leb 0.85 (confidence e) = true
  /\ PrimFloat.leb (confidence e) 0.95 = true.

(** The report a call creates. *)
Definition reportOf (c : Reports.Call) : Reports.EmergencyReport :=
  fst (Reports.createReport (Reports.env c) (Reports.kind c) (Reports.text c)
         []).

End Inv.

(* ===================================================================== *)
(** ** The components and the closures their callbacks hold *)
(* ===================================================================== *)

(** GestureRecognition.tsx as a component: the state, the closures of the
    latest render, and the handler given to [hands.onResults]. *)
Module Component.

Import Session.

(** What the two memoised callbacks of a render hold.  [onResults] is
    [useCallback(..., [mode, getCurrentGestures])]: [getCurrentGestures] is
    a new function at every render, so [onResults] is always the render's
    own closure, with the render's [mode].  [initializeHands] is
    [useCallback(..., [])]: every render gets the closure of the first
    render back, and the [onResults] that closure names is the first
    render's. *)
Record Closures : Type := mkClosures {
  onResultsHolds : Mode;
  initializeHandsGives : Mode
}.

Definition render (previous : option Closures) (st : State.t) : Closures :=
  let own := State.mode st in
  mkClosures own
    match previous with
    | Some c => initializeHandsGives c
    | None => own
    end.

Record t : Type := mk {
  state : State.t;
  closures : Closures;
  registered : option Mode
}.

(** The first render, before the camera is started. *)
Definition mount : t := mk initial (render None initial) None.

(** A state change renders the component again. *)
Definition rerender (st : State.t) (c : t) : t :=
  mk st (render (Some (closures c)) st) (registered c).

(** The buttons, and a result of the hand detector. *)
Inductive Action : Type :=
  | ClickMode (m : Mode)
  | ClickStart
  | ClickStop
  | ClickClear
  | Results
      (multiHandLandmarks :
         option (list (list Classifier.HandLandmarks * Z * Z))).

(** [ClickStart] is [startCamera]: it calls [initializeHands], which runs
    [hands.onResults(onResults)].  [Results] is the detector calling the
    handler it was given. *)
Definition act (c : t) (a : Action) : t :=
  match a with
  | ClickMode m => rerender (setMode m (state c)) c
  | ClickStart =>
      mk (state c) (closures c) (Some (initializeHandsGives (closures c)))
  | ClickStop => rerender (stopCamera (state c)) c
  | ClickClear => rerender (clearHistory (state c)) c
  | Results multiHandLandmarks =>
      match registered c with
      | Some held => rerender (onResults held multiHandLandmarks (state c)) c
      | None => c
      end
  end.

Definition runActions (actions : list Action) (c : t) : t :=
  foldl act c actions.

End Component.

(** Index.tsx as a component: the state [createReport] reads and writes,
    and what the callbacks installed by [startVoiceRecording] hold. *)
Module Page.

(** The [isOnline] and [location] of the render a closure was made in. *)
Record Held : Type := mkHeld {
  heldOnline : bool;
  heldLocation : option Reports.Coords
}.

Record t : Type := mk {
  isOnline : bool;
  location : option Reports.Coords;
  reports : list Reports.EmergencyReport;
  recognition : option Held;
  timers : list Held
}.

(** The first render: [navigator.onLine], no position yet, and the reports
    read back from storage. *)
Definition mount (onLine : bool) (saved : list Reports.EmergencyReport) : t :=
  mk onLine None saved None [].

(** The render the page is showing. *)
Definition current (p : t) : Held := mkHeld (isOnline p) (location p).

Definition envOf (h : Held) (dateNow newDate : Z) : Reports.Env :=
  Reports.mkEnv (heldOnline h) (heldLocation h) dateNow newDate.

(** The window events, the position callback, the buttons, a speech
    result and a timer started by [processVoiceTranscript] firing; the
    calls of [createReport] come with their two clock readings. *)
Inductive Action : Type :=
  | GoOnline
  | GoOffline
  | Located (coords : Reports.Coords)
  | ClickSOS (dateNow newDate : Z)
  | ClickRecord
  | ClickStopRecording
  | SpeechResult (transcript : string) (dateNow newDate : Z)
  | TimerFires (dateNow newDate : Z).

(** [ClickSOS] runs the [handleSOS] of the render on display.
    [ClickRecord] is [startVoiceRecording]: the [recognition.onresult] it
    installs calls the [processVoiceTranscript] of the render it was
    clicked in, whose [createReport] and [handleSOS] are that render's
    too. *)
Definition act (p : t) (a : Action) : t :=
  match a with
  | GoOnline => mk true (location p) (reports p) (recognition p) (timers p)
  | GoOffline => mk false (location p) (reports p) (recognition p) (timers p)
  | Located coords =>
      mk (isOnline p) (Some coords) (reports p) (recognition p) (timers p)
  | ClickSOS dateNow newDate =>
      mk (isOnline p) (location p)
         (Reports.handleSOS (envOf (current p) dateNow newDate) (reports p))
         (recognition p) (timers p)
  | ClickRecord =>
      mk (isOnline p) (location p) (reports p) (Some (current p)) (timers p)
  | ClickStopRecording =>
      mk (isOnline p) (location p) (reports p) None (timers p)
  | SpeechResult transcript dateNow newDate =>
      match recognition p with
      | Some held =>
          let '(_, log, sos) :=
            Voice.processVoiceTranscript (envOf held dateNow newDate)
              transcript (reports p) in
          mk (isOnline p) (location p) log (recognition p)
             (if sos then timers p ++ [held] else timers p)
      | None => p
      end
  | TimerFires dateNow newDate =>
      match timers p with
      | held :: rest =>
          mk (isOnline p) (location p)
             (Reports.handleSOS (envOf held dateNow newDate) (reports p))
             (recognition p) rest
      | [] => p
      end
  end.

Definition runActions (actions : list Action) (p : t) : t :=
  foldl act p actions.

End Page.

(* ===================================================================== *)
(** ** Concrete inputs *)
(* ===================================================================== *)

Module Samples.

Import Classifier.
Local Open Scope float_scope.

Definition origin : HandLandmarks := mkPoint 0 0.

(** A closed fist seen at scale 0.4: the wrist at (0.4, 0), the other
    twenty points at the origin. *)
Definition fistAtRim : list HandLandmarks := mkPoint 0.4 0 :: replicate 20 origin.

(** The same fist at scale 0.25. *)
Definition fistInside : list HandLandmarks :=
  mkPoint 0.25 0 :: replicate 20 origin.

(** Twenty points: one short of a Hand. *)
Definition shortHand : list HandLandmarks := replicate 20 origin.

Definition offline : Reports.Env := Reports.mkEnv false None 1700000000000 1700000000000.
Definition online : Reports.Env := Reports.mkEnv true None 1700000000500 1700000000500.

(** Thumb and index finger stretched, the other fingers folded onto the
    origin: the wrist at (0, 0.5), the thumb from (0, 0.25) to the origin,
    the index finger from the origin through (0.25, 0) to (0.5, 0). *)
Definition okHand : list HandLandmarks :=
  [ mkPoint 0 0.5; origin; mkPoint 0 0.25; origin; origin;
    origin; mkPoint 0.25 0; origin; mkPoint 0.5 0 ]
  ++ replicate 12 origin.

(** [fistInside] with the points the classifier does not read moved, and
    three more points after the hand. *)
Definition fistNoisy : list HandLandmarks :=
  [ mkPoint 0.25 0; mkPoint 0.7 0.7; origin; mkPoint 0.1 0.9 ]
  ++ replicate 17 origin ++ replicate 3 (mkPoint 0.3 0.3).

End Samples.

(* ===================================================================== *)
(** ** The classifier *)
(* ===================================================================== *)

Section ClassifierFacts.

Import Js Classifier.
Local Open Scope float_scope.

(** Under the guard of [recognizeGesture] no index read is out of range. *)
Lemma key_landmarks_defined (landmarks : list HandLandmarks) (i : nat) :
  (21 <= length landmarks)%nat -> (i <= 20)%nat ->
  landmarks !! i = Some (landmarks !!! i).
Proof.
  intros Hlen Hi.
  apply list_lookup_lookup_total_lt. lia.
Qed.

Lemma guard_passes (landmarks : list HandLandmarks) :
  (21 <= length landmarks)%nat -> (length landmarks <? 21)%nat = false.
Proof. intros H. apply Nat.ltb_ge. exact H. Qed.

Lemma recognized_has_21 (landmarks : list HandLandmarks) (g : Recognized) :
  recognizeGesture landmarks = Some g -> (21 <= length landmarks)%nat.
Proof.
  unfold recognizeGesture.
  destruct (length landmarks <? 21)%nat eqn:E; [discriminate|].
  intros _. apply Nat.ltb_ge. exact E.
Qed.

(** The chain of [if]s is a lookup in the table. *)
Lemma gesturePattern_table (t i m r p : bool) :
  gesturePattern t i m r p
  = default ("", 0.7) (Spec.lookupPattern (t, i, m, r, p)).
Proof. destruct t, i, m, r, p; reflexivity. Qed.

Lemma count_filter (t i m r p : bool) :
  length (filter (fun b : bool => b = true) [t; i; m; r; p])
  = Spec.extendedCount (t, i, m, r, p).
Proof. destruct t, i, m, r, p; reflexivity. Qed.

(** [recognizeGesture] on a Hand, through the table. *)
Lemma recognizeGesture_table (hand : list HandLandmarks) :
  (21 <= length hand)%nat ->
  recognizeGesture hand =
    match Spec.lookupPattern (Spec.fingerStates hand) with
    | Some (ty, base) =>
        Some (mkRecognized ty
                (adjustConfidence base
                   (Spec.extendedCount (Spec.fingerStates hand))
                   (hand !!! 0%nat) (hand !!! 5%nat) (hand !!! 9%nat)
                   (hand !!! 13%nat) (hand !!! 17%nat)))
    | None => None
    end.
Proof.
  intros Hlen. unfold recognizeGesture, Spec.fingerStates.
  rewrite (guard_passes _ Hlen). cbv zeta.
  rewrite count_filter, gesturePattern_table.
  destruct (isThumbExtended _ _ _);
    do 4 (destruct (isFingerExtended _ _ _)); reflexivity.
Qed.

(** The adjustment of the code, in the specification's terms. *)
Lemma adjustConfidence_open (base : float) (f : Spec.Fingers)
    (hand : list HandLandmarks) :
  adjustConfidence base (Spec.extendedCount f)
    (hand !!! 0%nat) (hand !!! 5%nat) (hand !!! 9%nat)
    (hand !!! 13%nat) (hand !!! 17%nat)
  = Spec.adjustedOpen base (Spec.extendedCount f) (Spec.handScale hand).
Proof.
  destruct f as [[[[t i] m] r] p].
  destruct t, i, m, r, p; reflexivity.
Qed.

Lemma recognized_outcomes (hand : list HandLandmarks) (g : Recognized) :
  recognizeGesture hand = Some g ->
  (type g, confidence g) ∈ Spec.outcomes.
Proof.
  intros H. pose proof (recognized_has_21 _ _ H) as Hlen.
  rewrite (recognizeGesture_table _ Hlen) in H.
  destruct (Spec.fingerStates hand) as [[[[t i] m] r] p].
  destruct (Spec.lookupPattern _) as [[ty base]|] eqn:El; [|discriminate].
  rewrite (adjustConfidence_open base (t, i, m, r, p) hand) in H.
  injection H as <-. cbn [type confidence]. unfold Spec.adjustedOpen.
  destruct t, i, m, r, p; vm_compute in El;
    try discriminate; injection El as <- <-;
    destruct (0.15 <? Spec.handScale hand), (Spec.handScale hand <? 0.4);
    vm_compute;
    repeat first [apply list_elem_of_here | apply list_elem_of_further].
Qed.

End ClassifierFacts.

(** Case analysis on the outcomes of a recognised gesture: [tac] closes
    the goal once type and confidence are known. *)
Ltac by_outcome H tac :=
  apply recognized_outcomes in H; unfold Spec.outcomes in H;
  repeat (apply elem_of_cons in H as [H|H]);
  [ injection H as -> -> ; tac .. | by apply elem_of_nil in H ].

Section ClassifierClaims.

Import Js Classifier.
Local Open Scope float_scope.

(** C2: for every Hand (21 points or more), the classifier's answer is
    decided by the five extension booleans through the fixed pattern
    table: only-thumb is thumb_up with base 0.90, index+middle is
    peace_sign with base 0.90, index alone is pointing with base 0.85,
    none extended is fist with base 0.90, all five is open_palm with base
    0.80, thumb+index is ok_sign with base 0.80, and every other tuple
    gives none; the returned confidence is the adjusted base. *)
Theorem C2_pattern_table (hand : list HandLandmarks) :
  (21 <= length hand)%nat ->
  (let '(t, i, m, r, p) := Spec.fingerStates hand in
   gesturePattern t i m r p
   = default ("", 0.7) (Spec.lookupPattern (t, i, m, r, p)))
  /\ recognizeGesture hand =
       match Spec.lookupPattern (Spec.fingerStates hand) with
       | Some (ty, base) =>
           Some (mkRecognized ty
                   (adjustConfidence base
                      (Spec.extendedCount (Spec.fingerStates hand))
                      (hand !!! 0%nat) (hand !!! 5%nat) (hand !!! 9%nat)
                      (hand !!! 13%nat) (hand !!! 17%nat)))
       | None => None
       end.
Proof.
  intros Hlen. split.
  - destruct (Spec.fingerStates hand) as [[[[t i] m] r] p].
    apply gesturePattern_table.
  - apply recognizeGesture_table, Hlen.
Qed.

Lemma C2_pattern_table_witness :
  (21 <= length Samples.fistAtRim)%nat
  /\ recognizeGesture Samples.fistAtRim
     = Some (mkRecognized "fist"
               (adjustConfidence 0.9 0
                  (mkPoint 0.4 0) Samples.origin Samples.origin
                  Samples.origin Samples.origin)).
Proof.
  split; [cbn; lia|].
  refine (proj2 (C2_pattern_table Samples.fistAtRim _)). cbn; lia.
Defined.

(** C3, amended: for every Hand on which the classifier returns a result,
    the returned confidence is the base of the matched pattern, plus 0.05
    when exactly 1, 2 or 5 fingers are extended, plus 0.05 when the
    distance from the wrist to the palm center (the mean of the four
    non-thumb MCP points) lies strictly between 0.15 and 0.4, capped at
    0.95. *)
Theorem C3_adjustment_open_interval
    (hand : list HandLandmarks) (g : Recognized) :
  recognizeGesture hand = Some g ->
  exists base : float,
    Spec.lookupPattern (Spec.fingerStates hand) = Some (type g, base)
    /\ confidence g
       = Spec.adjustedOpen base
           (Spec.extendedCount (Spec.fingerStates hand))
           (Spec.handScale hand).
Proof.
  intros H. pose proof (recognized_has_21 _ _ H) as Hlen.
  rewrite (recognizeGesture_table _ Hlen) in H.
  destruct (Spec.lookupPattern _) as [[ty base]|]; [|discriminate].
  injection H as <-. exists base. split; [reflexivity|].
  exact (adjustConfidence_open base (Spec.fingerStates hand) hand).
Qed.

Lemma C3_adjustment_open_interval_witness :
  recognizeGesture Samples.fistInside = Some (mkRecognized "fist" 0.95)
  /\ exists base : float,
       Spec.lookupPattern (Spec.fingerStates Samples.fistInside)
       = Some ("fist", base)
       /\ 0.95
          = Spec.adjustedOpen base
              (Spec.extendedCount (Spec.fingerStates Samples.fistInside))
              (Spec.handScale Samples.fistInside).
Proof.
  split; [vm_compute; reflexivity|].
  apply (C3_adjustment_open_interval Samples.fistInside
           (mkRecognized "fist" 0.95)).
  vm_compute; reflexivity.
Defined.

(** C3 as stated fails: a fist whose wrist lies at distance exactly 0.4
    from the palm center is returned with confidence 0.9, its base, while
    the closed interval [0.15, 0.4] would give 0.95. *)
Lemma C3_closed_interval_counterexample :
  recognizeGesture Samples.fistAtRim = Some (mkRecognized "fist" 0.9)
  /\ Spec.handScale Samples.fistAtRim = 0.4
  /\ Spec.adjustedClosed 0.9 0 0.4 = 0.95
  /\ ~ Spec.adjustmentRule Spec.adjustedClosed.
Proof.
  split; [vm_compute; reflexivity|].
  split; [vm_compute; reflexivity|].
  split; [vm_compute; reflexivity|].
  intros Hrule.
  destruct (Hrule Samples.fistAtRim (mkRecognized "fist" 0.9))
    as (base & Hbase & Hconf); [vm_compute; reflexivity|].
  vm_compute in Hbase. injection Hbase as <-.
  vm_compute in Hconf.
  apply (f_equal (fun v => v <? 0.95)) in Hconf.
  vm_compute in Hconf. discriminate.
Qed.

(** C4: for every Hand, a result the classifier returns has a confidence
    in (0, 0.95]: strictly positive and at most 0.95. *)
Theorem C4_confidence_range (hand : list HandLandmarks) (g : Recognized) :
  recognizeGesture hand = Some g ->
  (0 <? confidence g) = true /\ (confidence g <=? 0.95) = true.
Proof.
  intros H. destruct g as [ty c]. cbn [confidence].
  by_outcome H ltac:(split; vm_compute; reflexivity).
Qed.

Lemma C4_confidence_range_witness :
  recognizeGesture Samples.fistInside = Some (mkRecognized "fist" 0.95)
  /\ (0 <? 0.95) = true /\ (0.95 <=? 0.95) = true.
Proof.
  split; [vm_compute; reflexivity|].
  apply (C4_confidence_range Samples.fistInside (mkRecognized "fist" 0.95)).
  vm_compute; reflexivity.
Defined.

(** C5: a landmark list with fewer than 21 points is answered with none,
    an ordinary value of the classifier. *)
Theorem C5_short_hand_none (landmarks : list HandLandmarks) :
  (length landmarks < 21)%nat -> recognizeGesture landmarks = None.
Proof.
  intros Hlen. unfold recognizeGesture.
  apply Nat.ltb_lt in Hlen. rewrite Hlen. reflexivity.
Qed.

Lemma C5_short_hand_none_witness :
  (length Samples.shortHand < 21)%nat
  /\ recognizeGesture Samples.shortHand = None.
Proof.
  split; [cbn; lia|].
  apply (C5_short_hand_none Samples.shortHand). cbn; lia.
Defined.

End ClassifierClaims.

(* ===================================================================== *)
(** ** The gesture history *)
(* ===================================================================== *)

Section SessionFacts.

Import Js Classifier Session.
Local Open Scope float_scope.

(** Every label of both tables is a non-empty string. *)
Lemma labels_truthy (m : Mode) (ty label : string) :
  getCurrentGestures m !! ty = Some label -> truthy label = true.
Proof.
  unfold getCurrentGestures, alphabetGestures, wordGestures.
  intros H. destruct (decide (m = alphabet));
    apply elem_of_list_to_map_2 in H;
    repeat (apply elem_of_cons in H as [H|H]);
    try (injection H as -> ->; reflexivity);
    by apply elem_of_nil in H.
Qed.

(** A recognised gesture clears the confidence gate. *)
Lemma recognized_above_gate (hand : list HandLandmarks) (g : Recognized) :
  recognizeGesture hand = Some g ->
  (0.85 <=? Classifier.confidence g) = true
  /\ (0.7 <? Classifier.confidence g) = true.
Proof.
  intros H. destruct g as [ty c]. cbn [Classifier.confidence].
  by_outcome H ltac:(split; vm_compute; reflexivity).
Qed.

(** The handler on an accepted classification. *)
Lemma onHand_accepted (m : Mode) (st : State.t)
    (hand : list HandLandmarks) (created now : Z)
    (g : Recognized) (label : string) :
  recognizeGesture hand = Some g ->
  getCurrentGestures m !! Classifier.type g = Some label ->
  onHand m st (hand, created, now)
  = State.mk label (State.mode st)
      (historyUpdater label
         (mkGestureData label (Classifier.confidence g) created m) now
         (State.history st))
      (Classifier.confidence g).
Proof.
  intros Hg Hl. unfold onHand. rewrite Hg, Hl.
  rewrite (labels_truthy _ _ _ Hl).
  rewrite (proj2 (recognized_above_gate _ _ Hg)). reflexivity.
Qed.

Lemma historyUpdater_suppressed (label : string) (new : GestureData)
    (now : Z) (prev : list GestureData) :
  Spec.suppressed prev label now ->
  historyUpdater label new now prev = prev.
Proof.
  intros (e & Hlast & Hlabel & Htime). unfold historyUpdater.
  rewrite Hlast.
  apply String.eqb_eq in Hlabel. apply Z.ltb_lt in Htime.
  rewrite Hlabel, Htime. reflexivity.
Qed.

Lemma historyUpdater_appended (label : string) (new : GestureData)
    (now : Z) (prev : list GestureData) :
  ~ Spec.suppressed prev label now ->
  historyUpdater label new now prev = prev ++ [new].
Proof.
  intros Hno. unfold historyUpdater.
  destruct (last prev) as [e|] eqn:Hlast; [|reflexivity].
  destruct (String.eqb (gesture e) label) eqn:Hlabel; [|reflexivity].
  destruct (now - timestamp e <? 1000)%Z eqn:Htime; [|reflexivity].
  exfalso. apply Hno. exists e.
  apply String.eqb_eq in Hlabel. apply Z.ltb_lt in Htime. auto.
Qed.

(** After an append the new entry is the most recent one. *)
Lemma suppressed_after_append (prev : list GestureData) (new : GestureData)
    (label : string) (now : Z) :
  Spec.suppressed (prev ++ [new]) label now
  <-> gesture new = label /\ (now - timestamp new < 1000)%Z.
Proof.
  unfold Spec.suppressed. rewrite last_snoc. split.
  - intros (e & [= <-] & ? & ?). auto.
  - intros [? ?]. exists new. auto.
Qed.

(** One hand only ever extends the history, by entries of the handler's
    mode. *)
Lemma onHand_extends (m : Mode) (st : State.t)
    (hand : list HandLandmarks * Z * Z) :
  State.mode (onHand m st hand) = State.mode st
  /\ exists added : list GestureData,
       State.history (onHand m st hand) = State.history st ++ added
       /\ Forall (Spec.madeIn m) added.
Proof.
  destruct hand as [[landmarks created] now]. unfold onHand.
  destruct (recognizeGesture landmarks) as [g|];
    [|split; [reflexivity|exists []; rewrite app_nil_r; auto]].
  destruct (getCurrentGestures m !! Classifier.type g) as [label|] eqn:Hl;
    [|split; [reflexivity|exists []; rewrite app_nil_r; auto]].
  destruct (truthy label && (0.7 <? Classifier.confidence g));
    [|split; [reflexivity|exists []; rewrite app_nil_r; auto]].
  split; [reflexivity|]. cbn. unfold historyUpdater.
  destruct (last (State.history st)) as [e|].
  - destruct (String.eqb (gesture e) label && (now - timestamp e <? 1000)%Z).
    + exists []. rewrite app_nil_r. auto.
    + eexists. split; [reflexivity|].
      repeat constructor. exists (Classifier.type g). exact Hl.
  - eexists. split; [reflexivity|].
    repeat constructor. exists (Classifier.type g). exact Hl.
Qed.

Lemma onResults_extends (m : Mode)
    (frame : option (list (list HandLandmarks * Z * Z))) (st : State.t) :
  State.mode (onResults m frame st) = State.mode st
  /\ exists added : list GestureData,
       State.history (onResults m frame st) = State.history st ++ added
       /\ Forall (Spec.madeIn m) added.
Proof.
  destruct frame as [hands|]; cbn;
    [|split; [reflexivity|exists []; rewrite app_nil_r; auto]].
  revert st. induction hands as [|hand hands IH]; intros st; cbn.
  - split; [reflexivity|]. exists []. rewrite app_nil_r. auto.
  - destruct (IH (onHand m st hand)) as (Hmode & added2 & Hhist & Hall).
    destruct (onHand_extends m st hand) as (Hmode1 & added1 & Hhist1 & Hall1).
    split; [congruence|].
    exists (added1 ++ added2). rewrite Hhist, Hhist1, app_assoc.
    split; [reflexivity|]. apply Forall_app. auto.
Qed.

(** C6: for every accepted classifier output (a recognised gesture whose
    type has a label in the handler's table), if the most recently appended
    entry has the same label and its timestamp is less than 1000 ms before
    the current time, the history is unchanged; otherwise exactly one new
    entry is appended.  In particular, from a history that does not
    suppress the first feed, feeding the same classification a second time
    less than 1000 ms after the first entry appends nothing more, and
    feeding it again once 1000 ms have elapsed appends a second entry. *)
Theorem C6_debounce (m : Mode) (st : State.t)
    (hand : list HandLandmarks) (g : Recognized) (label : string) :
  recognizeGesture hand = Some g ->
  getCurrentGestures m !! Classifier.type g = Some label ->
  let entry (created : Z) :=
    mkGestureData label (Classifier.confidence g) created m in
  (forall created now : Z,
     Spec.suppressed (State.history st) label now ->
     State.history (onHand m st (hand, created, now)) = State.history st)
  /\ (forall created now : Z,
        ~ Spec.suppressed (State.history st) label now ->
        State.history (onHand m st (hand, created, now))
        = State.history st ++ [entry created])
  /\ (forall created1 now1 created2 now2 created3 now3 : Z,
        ~ Spec.suppressed (State.history st) label now1 ->
        (now2 - created1 < 1000)%Z ->
        (1000 <= now3 - created1)%Z ->
        let st1 := onHand m st (hand, created1, now1) in
        let st2 := onHand m st1 (hand, created2, now2) in
        let st3 := onHand m st2 (hand, created3, now3) in
        State.history st2 = State.history st ++ [entry created1]
        /\ State.history st3
           = State.history st ++ [entry created1; entry created3]).
Proof.
  intros Hg Hl entry.
  assert (Hstep : forall s created now,
             State.history (onHand m s (hand, created, now))
             = historyUpdater label (entry created) now (State.history s)).
  { intros s created now. rewrite (onHand_accepted _ _ _ _ _ _ _ Hg Hl).
    reflexivity. }
  split; [|split].
  - intros created now Hs. rewrite Hstep.
    apply historyUpdater_suppressed, Hs.
  - intros created now Hs. rewrite Hstep.
    apply historyUpdater_appended, Hs.
  - intros created1 now1 created2 now2 created3 now3 Hfirst Hnear Hfar.
    cbv zeta.
    assert (H1 : State.history (onHand m st (hand, created1, now1))
                 = State.history st ++ [entry created1]).
    { rewrite Hstep. apply historyUpdater_appended, Hfirst. }
    assert (H2 : State.history
                   (onHand m (onHand m st (hand, created1, now1))
                      (hand, created2, now2))
                 = State.history st ++ [entry created1]).
    { rewrite Hstep, H1. apply historyUpdater_suppressed.
      apply suppressed_after_append. split; [reflexivity|exact Hnear]. }
    split; [exact H2|].
    rewrite Hstep, H2, historyUpdater_appended.
    + rewrite <- app_assoc. reflexivity.
    + rewrite suppressed_after_append. cbn. lia.
Qed.

Lemma C6_debounce_witness :
  let hand := Samples.fistInside in
  let entry (created : Z) := mkGestureData "B" 0.95 created alphabet in
  let st1 := onHand alphabet initial (hand, 10%Z, 12%Z) in
  let st2 := onHand alphabet st1 (hand, 500%Z, 501%Z) in
  let st3 := onHand alphabet st2 (hand, 1010%Z, 1011%Z) in
  State.history st2 = [entry 10%Z]
  /\ State.history st3 = [entry 10%Z; entry 1010%Z].
Proof.
  refine (proj2 (proj2 (C6_debounce alphabet initial Samples.fistInside
                          (mkRecognized "fist" 0.95) "B" _ _))
            10%Z 12%Z 500%Z 501%Z 1010%Z 1011%Z _ _ _).
  - vm_compute; reflexivity.
  - vm_compute; reflexivity.
  - intros (e & Hlast & _). cbn in Hlast. discriminate.
  - lia.
  - lia.
Defined.

(** C10: for every Hand of at least 21 points on which the classifier
    returns a result, the confidence is at least 0.85, hence above the 0.7
    of the handler's gate: whenever the type has a label in the handler's
    table the classification is accepted and shown. *)
Theorem C10_confidence_floor (hand : list HandLandmarks) (g : Recognized) :
  (21 <= length hand)%nat ->
  recognizeGesture hand = Some g ->
  (0.85 <=? Classifier.confidence g) = true
  /\ (0.7 <? Classifier.confidence g) = true
  /\ forall (m : Mode) (st : State.t) (created now : Z) (label : string),
       getCurrentGestures m !! Classifier.type g = Some label ->
       State.currentText (onHand m st (hand, created, now)) = label
       /\ State.confidence (onHand m st (hand, created, now))
          = Classifier.confidence g.
Proof.
  intros _ Hg.
  destruct (recognized_above_gate _ _ Hg) as [Hfloor Hgate].
  split; [exact Hfloor|]. split; [exact Hgate|].
  intros m st created now label Hl.
  rewrite (onHand_accepted _ _ _ _ _ _ _ Hg Hl). split; reflexivity.
Qed.

Lemma C10_confidence_floor_witness :
  (21 <= length Samples.fistAtRim)%nat
  /\ recognizeGesture Samples.fistAtRim = Some (mkRecognized "fist" 0.9)
  /\ (0.85 <=? 0.9) = true /\ (0.7 <? 0.9) = true.
Proof.
  split; [cbn; lia|]. split; [vm_compute; reflexivity|].
  destruct (C10_confidence_floor Samples.fistAtRim (mkRecognized "fist" 0.9))
    as (Hfloor & Hgate & _).
  - cbn; lia.
  - vm_compute; reflexivity.
  - split; [exact Hfloor|exact Hgate].
Defined.

End SessionFacts.

(* ===================================================================== *)
(** ** The voice keyword spotter *)
(* ===================================================================== *)

Section VoiceFacts.

Import Js Voice.

(** The loop from any running match: the latest critical candidate if
    there is one, else the running match, else the first candidate. *)
Lemma foldl_scanEntry (transcript : string) (table : list (string * Info))
    (acc : option Detected) :
  foldl (scanEntry transcript) acc table =
    match last (Spec.criticalOnes (Spec.candidates table transcript)) with
    | Some d => Some d
    | None =>
        match acc with
        | Some a => Some a
        | None => head (Spec.candidates table transcript)
        end
    end.
Proof.
  revert acc. induction table as [|[keyword info] table IH]; intros acc.
  - destruct acc; reflexivity.
  - cbn [foldl]. rewrite IH. clear IH.
    unfold Spec.candidates, Spec.criticalOnes, scanEntry.
    destruct (includes transcript keyword) eqn:Hinc.
    + rewrite filter_cons_True by exact Hinc. rewrite fmap_cons.
      cbn [fst snd].
      destruct (decide (severity info = critical)) as [Hc|Hc].
      * rewrite (bool_decide_eq_true_2 _ Hc), orb_true_r.
        rewrite filter_cons_True by exact Hc. rewrite last_cons.
        destruct (last _); reflexivity.
      * rewrite (bool_decide_eq_false_2 _ Hc), orb_false_r.
        rewrite filter_cons_False by exact Hc.
        destruct (last _); [reflexivity|].
        destruct acc; reflexivity.
    + rewrite filter_cons_False by (cbn; rewrite Hinc; discriminate).
      reflexivity.
Qed.

Lemma scan_latestCriticalWins (table : list (string * Info))
    (transcript : string) :
  scan table transcript = Spec.latestCriticalWins table transcript.
Proof. unfold scan. rewrite foldl_scanEntry. reflexivity. Qed.

(** C1, amended: for every transcript, the spotter returns the first
    candidate of the table whose keyword the transcript includes, unless
    some candidate has severity critical; then it returns the candidate of
    severity critical that comes last in the table. *)
Theorem C1_latest_critical_wins (transcript : string) :
  detectedKeyword transcript
  = Spec.latestCriticalWins emergencyKeywords transcript.
Proof. apply scan_latestCriticalWins. Qed.

(** C1 as stated fails: on a transcript with the two critical keywords
    fire and ambulance the spotter answers ambulance, the later one, where
    the earliest critical candidate is fire. *)
Lemma C1_earliest_critical_counterexample :
  let transcript := "there is a fire and ambulance needed" in
  detectedKeyword transcript
  = Some (mkDetected "ambulance" (mkInfo "Medical Emergency" "108" critical))
  /\ Spec.earliestWins emergencyKeywords transcript
     = Some (mkDetected "fire" (mkInfo "Fire Department" "101" critical))
  /\ detectedKeyword transcript
     <> Spec.earliestWins emergencyKeywords transcript.
Proof.
  split; [vm_compute; reflexivity|].
  split; [vm_compute; reflexivity|].
  vm_compute. discriminate.
Qed.

End VoiceFacts.

(* ===================================================================== *)
(** ** The report log *)
(* ===================================================================== *)

Section ReportFacts.

Import Js Reports.

#[local] Instance toString_inj : Inj (=) (=) toString.
Proof.
  intros a b H. unfold toString in H.
  apply DecimalZ.to_int_inj.
  assert (Some (Z.to_int a) = Some (Z.to_int b)) as [= E]; [|exact E].
  rewrite <- !NilEmpty.isi. rewrite H. reflexivity.
Qed.

(** The log only grows at its end. *)
Lemma run_prefix (calls : list Call) (reports : list EmergencyReport) :
  exists added : list EmergencyReport,
    run calls reports = reports ++ added /\ length added = length calls.
Proof.
  revert reports. induction calls as [|c calls IH]; intros reports.
  - exists []. rewrite app_nil_r. auto.
  - destruct (IH (append reports c)) as (added & Hrun & Hlen).
    unfold run in *. cbn [foldl]. rewrite Hrun.
    unfold append at 1. cbn [createReport snd].
    eexists (_ :: added). rewrite <- app_assoc. cbn [app length].
    split; [reflexivity|]. rewrite Hlen. reflexivity.
Qed.

(** The ids of the log after a sequence of calls. *)
Lemma run_ids (calls : list Call) (reports : list EmergencyReport) :
  id <$> run calls reports
  = (id <$> reports) ++ (toString <$> ((fun c => dateNow (env c)) <$> calls)).
Proof.
  revert reports. induction calls as [|c calls IH]; intros reports.
  - cbn. rewrite app_nil_r. reflexivity.
  - unfold run in *. cbn [foldl]. rewrite IH.
    unfold append. cbn [createReport snd].
    rewrite fmap_app, <- app_assoc. reflexivity.
Qed.

(** C9, amended: each report's id is the decimal rendering of the clock
    reading [Date.now()] of its creation; for every sequence of calls whose
    clock readings are pairwise distinct, the ids of the reports in the log
    are pairwise distinct. *)
Theorem C9_ids_distinct_when_clock_distinct (calls : list Call) :
  NoDup ((fun c => dateNow (env c)) <$> calls) ->
  id <$> run calls []
  = (fun c => toString (dateNow (env c))) <$> calls
  /\ NoDup (id <$> run calls []).
Proof.
  intros Hclock. rewrite run_ids. cbn [fmap list_fmap app].
  rewrite <- list_fmap_compose. split; [reflexivity|].
  rewrite list_fmap_compose. apply (NoDup_fmap_2 toString). exact Hclock.
Qed.

Lemma C9_ids_distinct_when_clock_distinct_witness :
  let calls := [mkCall Samples.offline SOS "Emergency SOS activated";
                mkCall Samples.online Voice "fire"] in
  NoDup ((fun c => dateNow (env c)) <$> calls)
  /\ id <$> run calls [] = ["1700000000000"; "1700000000500"]
  /\ NoDup (id <$> run calls []).
Proof.
  assert (Hclock : NoDup ((fun c => dateNow (env c)) <$>
            [mkCall Samples.offline SOS "Emergency SOS activated";
             mkCall Samples.online Voice "fire"])).
  { cbn. apply NoDup_cons. split; [|apply NoDup_singleton].
    intros H. apply list_elem_of_singleton in H. discriminate. }
  split; [exact Hclock|].
  exact (C9_ids_distinct_when_clock_distinct _ Hclock).
Defined.

(** C9 as stated fails: two reports created within the same millisecond
    receive the same id. *)
Lemma C9_same_millisecond_counterexample :
  let calls := [mkCall Samples.offline Voice "fire";
                mkCall Samples.offline SOS "Emergency SOS activated"] in
  id <$> run calls [] = ["1700000000000"; "1700000000000"]
  /\ ~ NoDup (id <$> run calls []).
Proof.
  split; [vm_compute; reflexivity|].
  vm_compute. intros H. apply NoDup_cons in H as [Hin _].
  apply Hin. apply list_elem_of_singleton. reflexivity.
Qed.

End ReportFacts.

(* ===================================================================== *)
(** ** More on the classifier *)
(* ===================================================================== *)

Section ClassifierMore.

Import Js Classifier.
Local Open Scope float_scope.

Lemma keyIndices_bound (i : nat) : i ∈ Inv.keyIndices -> (i <= 20)%nat.
Proof.
  unfold Inv.keyIndices. intros H.
  repeat (apply elem_of_cons in H as [->|H]; [lia|]).
  by apply elem_of_nil in H.
Qed.

(** X1: the answer depends on the fifteen landmarks the classifier reads
    and on nothing else: two lists of at least 21 points that agree at the
    indices 0, 2, 4, 5, 6, 8, 9, 10, 12, 13, 14, 16, 17, 18 and 20 are
    classified alike, whatever their other points and their lengths. *)
Theorem recognizeGesture_reads_key_points (l1 l2 : list HandLandmarks) :
  (21 <= length l1)%nat -> (21 <= length l2)%nat ->
  (forall i : nat, i ∈ Inv.keyIndices -> l1 !! i = l2 !! i) ->
  recognizeGesture l1 = recognizeGesture l2.
Proof.
  intros H1 H2 Hkey.
  assert (Htot : forall i, i ∈ Inv.keyIndices -> l1 !!! i = l2 !!! i).
  { intros i Hi. pose proof (keyIndices_bound i Hi) as Hb.
    pose proof (Hkey i Hi) as E.
    rewrite (key_landmarks_defined l1 i H1 Hb) in E.
    rewrite (key_landmarks_defined l2 i H2 Hb) in E.
    by injection E. }
  unfold recognizeGesture.
  rewrite (guard_passes _ H1), (guard_passes _ H2).
  assert (Hin : forall i, bool_decide (i ∈ Inv.keyIndices) = true ->
                          l1 !!! i = l2 !!! i).
  { intros i Hi. apply Htot. by apply bool_decide_eq_true_1 in Hi. }
  rewrite (Hin 0%nat eq_refl), (Hin 2%nat eq_refl), (Hin 4%nat eq_refl),
    (Hin 5%nat eq_refl), (Hin 6%nat eq_refl), (Hin 8%nat eq_refl),
    (Hin 9%nat eq_refl), (Hin 10%nat eq_refl), (Hin 12%nat eq_refl),
    (Hin 13%nat eq_refl), (Hin 14%nat eq_refl), (Hin 16%nat eq_refl),
    (Hin 17%nat eq_refl), (Hin 18%nat eq_refl), (Hin 20%nat eq_refl).
  reflexivity.
Qed.

Lemma recognizeGesture_reads_key_points_witness :
  recognizeGesture Samples.fistNoisy = recognizeGesture Samples.fistInside.
Proof.
  apply (recognizeGesture_reads_key_points
           Samples.fistNoisy Samples.fistInside).
  - cbn; lia.
  - cbn; lia.
  - intros i Hi. unfold Inv.keyIndices in Hi.
    repeat (apply elem_of_cons in Hi as [->|Hi]; [reflexivity|]).
    by apply elem_of_nil in Hi.
Defined.

(** X2: what a result can be.  thumb_up and peace_sign always come with
    confidence 0.95, the hand scale making no difference; pointing and fist
    come with 0.9 or 0.95; open_palm and ok_sign with 0.8 + 0.05 or
    0.8 + 0.05 + 0.05.  No other type is ever returned. *)
Theorem recognizeGesture_results (hand : list HandLandmarks) (g : Recognized) :
  recognizeGesture hand = Some g ->
  ((type g = "thumb_up" \/ type g = "peace_sign") /\ confidence g = 0.95)
  \/ ((type g = "pointing" \/ type g = "fist")
      /\ (confidence g = 0.9 \/ confidence g = 0.95))
  \/ ((type g = "open_palm" \/ type g = "ok_sign")
      /\ (confidence g = 0.8 + 0.05 \/ confidence g = 0.8 + 0.05 + 0.05)).
Proof.
  intros H. destruct g as [ty c]. cbn [type confidence].
  by_outcome H ltac:(vm_compute; tauto).
Qed.

Lemma recognizeGesture_results_witness :
  recognizeGesture Samples.okHand = Some (mkRecognized "ok_sign" (0.8 + 0.05))
  /\ (0.8 + 0.05 = 0.8 + 0.05 \/ 0.8 + 0.05 = 0.8 + 0.05 + 0.05).
Proof.
  split; [vm_compute; reflexivity|].
  destruct (recognizeGesture_results Samples.okHand
              (mkRecognized "ok_sign" (0.8 + 0.05)))
    as [[[E|E] _]|[[[E|E] _]|[_ H]]];
    [vm_compute; reflexivity|discriminate E..|exact H].
Defined.

End ClassifierMore.

(* ===================================================================== *)
(** ** More on the handler and the history *)
(* ===================================================================== *)

Section SessionMore.

Import Js Classifier Session.
Local Open Scope float_scope.

(** Every type the classifier returns has a label in word mode; in
    alphabet mode all but ok_sign have one. *)
Lemma recognized_labels (hand : list HandLandmarks) (g : Recognized) :
  recognizeGesture hand = Some g ->
  is_Some (wordGestures !! Classifier.type g)
  /\ (Classifier.type g = "ok_sign"
      /\ alphabetGestures !! Classifier.type g = None
      \/ Classifier.type g <> "ok_sign"
         /\ is_Some (alphabetGestures !! Classifier.type g)).
Proof.
  intros H. destruct g as [ty c]. cbn [Classifier.type].
  by_outcome H ltac:(split; [vm_compute; eauto|];
                     first [ left; split; vm_compute; reflexivity
                           | right; split; [discriminate|vm_compute; eauto] ]).
Qed.

(** X4: in alphabet mode the gesture ok_sign has no label: the handler
    drops it and leaves text, confidence and history as they were; every
    other recognised gesture is shown with its letter. *)
Theorem alphabet_mode_drops_ok_sign (st : State.t)
    (hand : list HandLandmarks) (created now : Z) (g : Recognized) :
  recognizeGesture hand = Some g ->
  (Classifier.type g = "ok_sign" ->
   onHand alphabet st (hand, created, now) = st)
  /\ (Classifier.type g <> "ok_sign" ->
      exists label : string,
        alphabetGestures !! Classifier.type g = Some label
        /\ State.currentText (onHand alphabet st (hand, created, now))
           = label).
Proof.
  intros Hg.
  destruct (proj2 (recognized_labels _ _ Hg)) as [[Hok Hnone]|[Hne [label Hl]]].
  - split; [|intros Hne; contradiction].
    intros _. unfold onHand. rewrite Hg.
    change (getCurrentGestures alphabet) with alphabetGestures.
    rewrite Hnone. reflexivity.
  - split; [intros Hok; contradiction|].
    intros _. exists label. split; [exact Hl|].
    rewrite (onHand_accepted alphabet st hand created now g label Hg Hl).
    reflexivity.
Qed.

Lemma alphabet_mode_drops_ok_sign_witness :
  onHand alphabet initial (Samples.okHand, 5%Z, 5%Z) = initial.
Proof.
  refine (proj1 (alphabet_mode_drops_ok_sign initial Samples.okHand 5%Z 5%Z
                   (mkRecognized "ok_sign" (0.8 + 0.05)) _) _).
  - vm_compute; reflexivity.
  - reflexivity.
Defined.

(** X5: a frame in which no hand is recognised (too few points, or no
    pattern), a frame without hands and a result without
    [multiHandLandmarks] leave the whole state as it was. *)
Theorem onResults_nothing_recognised (m : Mode) (st : State.t)
    (hands : list (list HandLandmarks * Z * Z)) :
  Forall (fun hand => recognizeGesture hand.1.1 = None) hands ->
  onResults m (Some hands) st = st /\ onResults m None st = st.
Proof.
  intros Hall. split; [|reflexivity]. cbn. revert st.
  induction Hall as [|[[landmarks created] now] hands Hnone _ IH]; intros st.
  - reflexivity.
  - cbn [foldl]. cbn in Hnone. unfold onHand at 2. rewrite Hnone. apply IH.
Qed.

Lemma onResults_nothing_recognised_witness :
  onResults word (Some [(Samples.shortHand, 1%Z, 1%Z); ([], 2%Z, 2%Z)])
    initial = initial
  /\ onResults word None initial = initial.
Proof.
  apply (onResults_nothing_recognised word initial
           [(Samples.shortHand, 1%Z, 1%Z); ([], 2%Z, 2%Z)]).
  repeat constructor.
Defined.

Lemma historyUpdater_length (label : string) (new : GestureData) (now : Z)
    (prev : list GestureData) :
  (length prev <= length (historyUpdater label new now prev)
   <= length prev + 1)%nat.
Proof.
  unfold historyUpdater.
  destruct (last prev) as [e|];
    [destruct (String.eqb (gesture e) label && (now - timestamp e <? 1000)%Z)|];
    rewrite ?length_app; cbn; lia.
Qed.

Lemma onHand_length (m : Mode) (st : State.t)
    (hand : list HandLandmarks * Z * Z) :
  (length (State.history st) <= length (State.history (onHand m st hand))
   <= length (State.history st) + 1)%nat.
Proof.
  destruct hand as [[landmarks created] now]. unfold onHand.
  destruct (recognizeGesture landmarks) as [g|]; [|lia].
  destruct (getCurrentGestures m !! Classifier.type g) as [label|]; [|lia].
  destruct (truthy label && (0.7 <? Classifier.confidence g)); [|lia].
  cbn. apply historyUpdater_length.
Qed.

(** X6: a frame never shortens the history and adds at most one entry per
    detected hand. *)
Theorem onResults_history_growth (m : Mode) (st : State.t)
    (hands : list (list HandLandmarks * Z * Z)) :
  (length (State.history st)
   <= length (State.history (onResults m (Some hands) st))
   <= length (State.history st) + length hands)%nat.
Proof.
  cbn. revert st. induction hands as [|hand hands IH]; intros st.
  - cbn. lia.
  - cbn [foldl length]. specialize (IH (onHand m st hand)).
    pose proof (onHand_length m st hand). lia.
Qed.

End SessionMore.

(* ===================================================================== *)
(** ** Substrings and joins *)
(* ===================================================================== *)

Section StringFacts.

Import Js.

Lemma prefix_refl (s : string) : String.prefix s s = true.
Proof.
  induction s as [|a s IH]; [reflexivity|].
  cbn. destruct (ascii_dec a a); [exact IH|congruence].
Qed.

Lemma prefix_app (sub s post : string) :
  String.prefix sub s = true -> String.prefix sub (s +:+ post) = true.
Proof.
  revert sub. induction s as [|b s IH]; intros [|a sub] H.
  - destruct post; reflexivity.
  - discriminate.
  - reflexivity.
  - change (String b s +:+ post) with (String b (s +:+ post)).
    cbn in *. destruct (ascii_dec a b); [apply IH, H|discriminate].
Qed.

Lemma string_app_assoc (a b c : string) :
  (a +:+ b) +:+ c = a +:+ b +:+ c.
Proof.
  induction a as [|ch a IH]; [reflexivity|].
  change ((String ch a +:+ b) +:+ c) with (String ch ((a +:+ b) +:+ c)).
  change (String ch a +:+ b +:+ c) with (String ch (a +:+ b +:+ c)).
  rewrite IH. reflexivity.
Qed.

Lemma includes_unfold (s sub : string) :
  includes s sub
  = String.prefix sub s
    || match s with
       | EmptyString => false
       | String _ rest => includes rest sub
       end.
Proof. destruct s; reflexivity. Qed.

Lemma includes_refl (s : string) : includes s s = true.
Proof. rewrite includes_unfold, prefix_refl. reflexivity. Qed.

Lemma includes_app_l (s post sub : string) :
  includes s sub = true -> includes (s +:+ post) sub = true.
Proof.
  induction s as [|a s IH]; intros H.
  - rewrite includes_unfold in H. rewrite orb_false_r in H.
    rewrite includes_unfold. apply orb_true_intro. left.
    apply (prefix_app sub "" post), H.
  - rewrite includes_unfold in H. apply orb_prop in H as [H|H].
    + rewrite includes_unfold. apply orb_true_intro. left.
      apply prefix_app, H.
    + change (String a s +:+ post) with (String a (s +:+ post)).
      rewrite includes_unfold. apply orb_true_intro. right. apply IH, H.
Qed.

Lemma includes_app_r (pre s sub : string) :
  includes s sub = true -> includes (pre +:+ s) sub = true.
Proof.
  intros H. induction pre as [|a pre IH]; [exact H|].
  change (String a pre +:+ s) with (String a (pre +:+ s)).
  rewrite includes_unfold. apply orb_true_intro. right. exact IH.
Qed.

Lemma join_includes (sep : string) (arr : list string) (s : string) :
  s ∈ arr -> includes (join sep arr) s = true.
Proof.
  induction arr as [|a arr IH]; intros H; [by apply elem_of_nil in H|].
  apply elem_of_cons in H as [Heq|H].
  - subst a. destruct arr; [apply includes_refl|].
    cbn [join]. apply includes_app_l, includes_refl.
  - destruct arr as [|b arr]; [by apply elem_of_nil in H|].
    change (join sep (a :: b :: arr))
      with (a +:+ sep +:+ join sep (b :: arr)).
    apply includes_app_r, includes_app_r, IH, H.
Qed.

End StringFacts.

(* ===================================================================== *)
(** ** Invariants of the history *)
(* ===================================================================== *)

Section HistoryInvariants.

Import Js Classifier Session.
Local Open Scope float_scope.

Lemma historyUpdater_last (label : string) (new : GestureData) (now : Z)
    (prev : list GestureData) :
  gesture new = label ->
  exists e : GestureData,
    last (historyUpdater label new now prev) = Some e /\ gesture e = label.
Proof.
  intros Hnew. unfold historyUpdater.
  destruct (last prev) as [e|] eqn:Hlast.
  - destruct (String.eqb (gesture e) label) eqn:Hlabel; cbn [andb].
    + destruct (now - timestamp e <? 1000)%Z.
      * exists e. split; [exact Hlast|]. by apply String.eqb_eq.
      * exists new. rewrite last_snoc. auto.
    + exists new. rewrite last_snoc. auto.
  - exists new. rewrite last_snoc. auto.
Qed.

Lemma onHand_shownIsLatest (m : Mode) (st : State.t)
    (hand : list HandLandmarks * Z * Z) :
  Inv.shownIsLatest st -> Inv.shownIsLatest (onHand m st hand).
Proof.
  intros Hst. destruct hand as [[landmarks created] now]. unfold onHand.
  destruct (recognizeGesture landmarks) as [g|]; [|exact Hst].
  destruct (getCurrentGestures m !! Classifier.type g) as [label|];
    [|exact Hst].
  destruct (truthy label && (0.7 <? Classifier.confidence g)); [|exact Hst].
  right. cbn. apply historyUpdater_last. reflexivity.
Qed.

Lemma step_shownIsLatest (st : State.t) (ev : Event) :
  Inv.shownIsLatest st -> Inv.shownIsLatest (step st ev).
Proof.
  intros Hst. destruct ev as [held [hands|]|m| |]; cbn [step].
  - cbn. revert st Hst. induction hands as [|hand hands IH]; intros st Hst.
    + exact Hst.
    + cbn [foldl]. apply IH, onHand_shownIsLatest, Hst.
  - exact Hst.
  - exact Hst.
  - left. reflexivity.
  - left. reflexivity.
Qed.

(** X7: whatever frames arrive and whatever buttons are used, the text on
    display is either empty or the label of the most recent history entry:
    the display and the history never disagree. *)
Theorem shown_text_is_latest_entry (evs : list Event) :
  Inv.shownIsLatest (runEvents evs initial).
Proof.
  unfold runEvents.
  assert (H0 : Inv.shownIsLatest initial) by (left; reflexivity).
  revert H0. generalize initial.
  induction evs as [|ev evs IH]; intros st Hst; [exact Hst|].
  cbn [foldl]. apply IH, step_shownIsLatest, Hst.
Qed.

Lemma spaced_snoc (prev : list GestureData) (new : GestureData) :
  Inv.spaced prev ->
  (forall e : GestureData,
     last prev = Some e -> gesture e = gesture new ->
     (1000 <= timestamp new - timestamp e)%Z) ->
  Inv.spaced (prev ++ [new]).
Proof.
  intros Hprev Hlast i e1 e2 H1 H2 Heq.
  destruct (decide (S i < length prev)%nat) as [Hlt|Hge].
  - rewrite lookup_app_l in H1 by lia. rewrite lookup_app_l in H2 by lia.
    exact (Hprev i e1 e2 H1 H2 Heq).
  - destruct (decide (S i = length prev)) as [Hi|Hne].
    + rewrite lookup_app_l in H1 by lia.
      rewrite lookup_app_r in H2 by lia.
      replace (S i - length prev)%nat with 0%nat in H2 by lia.
      injection H2 as <-.
      apply Hlast; [|exact Heq].
      rewrite last_lookup. replace (pred (length prev)) with i by lia.
      exact H1.
    + apply lookup_lt_Some in H2. rewrite length_app in H2. cbn in H2. lia.
Qed.

Lemma onHand_spaced (m : Mode) (st : State.t)
    (landmarks : list HandLandmarks) (now : Z) :
  Inv.spaced (State.history st) ->
  Inv.spaced (State.history (onHand m st (landmarks, now, now))).
Proof.
  intros Hst. unfold onHand.
  destruct (recognizeGesture landmarks) as [g|]; [|exact Hst].
  destruct (getCurrentGestures m !! Classifier.type g) as [label|];
    [|exact Hst].
  destruct (truthy label && (0.7 <? Classifier.confidence g)); [|exact Hst].
  cbn. unfold historyUpdater.
  destruct (last (State.history st)) as [e|] eqn:Hlast.
  - destruct (String.eqb (gesture e) label) eqn:Hlabel; cbn [andb].
    + destruct (now - timestamp e <? 1000)%Z eqn:Htime; [exact Hst|].
      apply spaced_snoc; [exact Hst|].
      intros e' He' _. rewrite Hlast in He'. injection He' as <-.
      cbn. apply Z.ltb_ge in Htime. exact Htime.
    + apply spaced_snoc; [exact Hst|].
      intros e' He' Heq. rewrite Hlast in He'. injection He' as <-.
      cbn in Heq. apply String.eqb_neq in Hlabel. contradiction.
  - apply spaced_snoc; [exact Hst|].
    intros e' He'. rewrite Hlast in He'. discriminate.
Qed.

Lemma step_spaced (st : State.t) (ev : Event) :
  Inv.oneReading ev ->
  Inv.spaced (State.history st) -> Inv.spaced (State.history (step st ev)).
Proof.
  intros Hev Hst. destruct ev as [held [hands|]|m| |]; cbn [step].
  - cbn in Hev |- *. revert st Hst.
    induction Hev as [|[[landmarks created] now] hands Hone _ IH];
      intros st Hst; [exact Hst|].
    cbn [foldl]. cbn in Hone. subst created.
    apply IH, onHand_spaced, Hst.
  - exact Hst.
  - exact Hst.
  - intros i e1 e2 H1. cbn in H1. discriminate.
  - exact Hst.
Qed.

(** X8: when each entry is stamped with the clock reading its updater
    compares with, the history never holds two neighbouring entries with
    the same label less than 1000 ms apart, whatever frames arrive and
    whatever buttons are used. *)
Theorem history_entries_spaced (evs : list Event) :
  Forall Inv.oneReading evs ->
  Inv.spaced (State.history (runEvents evs initial)).
Proof.
  unfold runEvents. intros Hall.
  assert (H0 : Inv.spaced (State.history initial)).
  { intros i e1 e2 H1. cbn in H1. discriminate. }
  revert H0. generalize initial.
  induction Hall as [|ev evs Hev _ IH]; intros st Hst; [exact Hst|].
  cbn [foldl]. apply IH, step_spaced; assumption.
Qed.

Lemma history_entries_spaced_witness :
  let evs :=
    [ Frame alphabet (Some [(Samples.fistInside, 10%Z, 10%Z)]);
      Frame alphabet (Some [(Samples.fistInside, 500%Z, 500%Z);
                            (Samples.fistInside, 1010%Z, 1010%Z)]);
      SetMode word;
      Frame word (Some [(Samples.fistInside, 1200%Z, 1200%Z)]) ] in
  Forall Inv.oneReading evs
  /\ Inv.spaced (State.history (runEvents evs initial)).
Proof.
  assert (Hall : Forall Inv.oneReading
    [ Frame alphabet (Some [(Samples.fistInside, 10%Z, 10%Z)]);
      Frame alphabet (Some [(Samples.fistInside, 500%Z, 500%Z);
                            (Samples.fistInside, 1010%Z, 1010%Z)]);
      SetMode word;
      Frame word (Some [(Samples.fistInside, 1200%Z, 1200%Z)]) ]).
  { repeat constructor. }
  split; [exact Hall|]. exact (history_entries_spaced _ Hall).
Defined.

(** X9: after [clearHistory] the next accepted classification is always
    recorded, whatever the clock says: the history is exactly that one
    entry, and it is the text on display. *)
Theorem clearHistory_then_accepted (m : Mode) (st : State.t)
    (hand : list HandLandmarks) (created now : Z)
    (g : Recognized) (label : string) :
  recognizeGesture hand = Some g ->
  getCurrentGestures m !! Classifier.type g = Some label ->
  State.history (clearHistory st) = []
  /\ State.currentText (clearHistory st) = ""
  /\ State.history (onHand m (clearHistory st) (hand, created, now))
     = [mkGestureData label (Classifier.confidence g) created m]
  /\ State.currentText (onHand m (clearHistory st) (hand, created, now))
     = label.
Proof.
  intros Hg Hl. split; [reflexivity|]. split; [reflexivity|].
  rewrite (onHand_accepted m _ hand created now g label Hg Hl).
  split; reflexivity.
Qed.

Lemma clearHistory_then_accepted_witness :
  let st := onHand alphabet initial (Samples.fistInside, 10%Z, 10%Z) in
  State.history (onHand alphabet (clearHistory st)
                   (Samples.fistInside, 20%Z, 20%Z))
  = [mkGestureData "B" 0.95 20%Z alphabet].
Proof.
  refine (proj1 (proj2 (proj2 (clearHistory_then_accepted alphabet _
            Samples.fistInside 20%Z 20%Z (mkRecognized "fist" 0.95) "B"
            _ _)))).
  - vm_compute; reflexivity.
  - vm_compute; reflexivity.
Defined.

(** X10: the text [copyToClipboard] writes contains the label of every
    history entry; it is empty for the empty history, and recording one
    more entry appends a space and its label. *)
Theorem textToCopy_holds_every_label (history : list GestureData) :
  (forall e : GestureData,
     e ∈ history -> includes (textToCopy history) (gesture e) = true)
  /\ textToCopy [] = ""
  /\ (forall e : GestureData,
        history <> [] ->
        textToCopy (history ++ [e])
        = textToCopy history +:+ " " +:+ gesture e).
Proof.
  split; [|split].
  - intros e He. unfold textToCopy. apply join_includes.
    apply list_elem_of_fmap. exists e. auto.
  - reflexivity.
  - intros e Hne. unfold textToCopy. rewrite fmap_app. cbn [fmap list_fmap].
    induction history as [|a history IH]; [contradiction|].
    destruct history as [|b history]; [reflexivity|].
    change (join " " (gesture <$> a :: b :: history))
      with (gesture a +:+ " " +:+ join " " (gesture <$> b :: history)).
    change (join " " ((gesture <$> a :: b :: history) ++ [gesture e]))
      with (gesture a +:+ " "
            +:+ join " " ((gesture <$> b :: history) ++ [gesture e])).
    rewrite IH by discriminate.
    rewrite !string_app_assoc. reflexivity.
Qed.

Lemma textToCopy_holds_every_label_witness :
  let history := [mkGestureData "B" 0.95 10%Z alphabet;
                  mkGestureData "STOP" 0.9 2000%Z alphabet] in
  includes (textToCopy history) "STOP" = true
  /\ textToCopy (history ++ [mkGestureData "A" 0.95 4000%Z alphabet])
     = textToCopy history +:+ " " +:+ "A".
Proof.
  pose proof (textToCopy_holds_every_label
                [mkGestureData "B" 0.95 10%Z alphabet;
                 mkGestureData "STOP" 0.9 2000%Z alphabet])
    as (Hin & _ & Happ).
  split.
  - apply (Hin (mkGestureData "STOP" 0.9 2000%Z alphabet)).
    apply list_elem_of_further, list_elem_of_here.
  - apply (Happ (mkGestureData "A" 0.95 4000%Z alphabet)). discriminate.
Defined.

(** X11: the history panel shows the ten most recent entries, or all of
    them when there are fewer, the newest first: read backwards, the panel
    is the end of the history. *)
Theorem recentHistory_newest_first (history : list GestureData) :
  length (recentHistory history) = Nat.min (length history) 10
  /\ head (recentHistory history) = last history
  /\ exists older : list GestureData,
       history = older ++ reverse (recentHistory history).
Proof.
  unfold recentHistory. split; [|split].
  - rewrite length_reverse, length_drop. lia.
  - rewrite head_reverse.
    destruct (decide (history = [])) as [->|Hne]; [reflexivity|].
    rewrite !last_lookup, length_drop, lookup_drop. f_equal.
    assert (0 < length history)%nat by (destruct history; cbn; [done|lia]).
    lia.
  - exists (take (length history - 10) history).
    rewrite reverse_involutive, take_drop. reflexivity.
Qed.

End HistoryInvariants.

(* ===================================================================== *)
(** ** More on the voice keyword spotter *)
(* ===================================================================== *)

Section VoiceMore.

Import Js Voice.

Lemma candidates_elem (table : list (string * Info)) (transcript : string)
    (d : Detected) :
  d ∈ Spec.candidates table transcript
  <-> (keyword d, info d) ∈ table
      /\ includes transcript (keyword d) = true.
Proof.
  unfold Spec.candidates. rewrite list_elem_of_fmap. split.
  - intros ([k i] & -> & Hin). apply list_elem_of_filter in Hin as [Hinc Hin].
    cbn in *. auto.
  - intros [Hin Hinc]. exists (keyword d, info d). split.
    + destruct d; reflexivity.
    + apply list_elem_of_filter. auto.
Qed.

Lemma candidates_nil (table : list (string * Info)) (transcript : string) :
  Spec.candidates table transcript = [] <-> Inv.silent table transcript.
Proof.
  unfold Inv.silent. rewrite Forall_forall. split.
  - intros Hnil [k i] Hin. cbn.
    destruct (includes transcript k) eqn:Hinc; [|reflexivity].
    assert (Hd : mkDetected k i ∈ Spec.candidates table transcript)
      by (apply candidates_elem; auto).
    rewrite Hnil in Hd. by apply elem_of_nil in Hd.
  - intros Hall. destruct (Spec.candidates table transcript) as [|d ds] eqn:E;
      [reflexivity|].
    assert (Hd : d ∈ Spec.candidates table transcript)
      by (rewrite E; apply list_elem_of_here).
    apply candidates_elem in Hd as [Hin Hinc].
    specialize (Hall _ Hin). cbn in Hall. congruence.
Qed.

Lemma scan_elem (table : list (string * Info)) (transcript : string)
    (d : Detected) :
  scan table transcript = Some d -> d ∈ Spec.candidates table transcript.
Proof.
  rewrite scan_latestCriticalWins. unfold Spec.latestCriticalWins.
  destruct (last _) as [c|] eqn:Hlast.
  - intros [= <-]. apply last_Some_elem_of in Hlast.
    unfold Spec.criticalOnes in Hlast.
    apply list_elem_of_filter in Hlast as [_ Hin]. exact Hin.
  - apply head_Some_elem_of.
Qed.

Lemma scan_none (table : list (string * Info)) (transcript : string) :
  scan table transcript = None <-> Inv.silent table transcript.
Proof.
  rewrite <- candidates_nil, scan_latestCriticalWins.
  unfold Spec.latestCriticalWins. split.
  - destruct (last _); [discriminate|]. apply head_None.
  - intros ->. reflexivity.
Qed.

Lemma scan_critical (table : list (string * Info)) (transcript : string) :
  (exists d : Detected,
     scan table transcript = Some d /\ severity (info d) = critical)
  <-> Inv.alarming table transcript.
Proof.
  unfold Inv.alarming. rewrite Exists_exists. split.
  - intros (d & Hscan & Hcrit).
    apply scan_elem, candidates_elem in Hscan as [Hin Hinc].
    exists (keyword d, info d). auto.
  - intros ([k i] & Hin & Hinc & Hcrit). cbn in Hinc, Hcrit.
    rewrite scan_latestCriticalWins. unfold Spec.latestCriticalWins.
    assert (Hd : mkDetected k i
                 ∈ Spec.criticalOnes (Spec.candidates table transcript)).
    { apply list_elem_of_filter. split; [exact Hcrit|].
      apply candidates_elem. auto. }
    destruct (last _) as [c|] eqn:Hlast.
    + exists c. split; [reflexivity|].
      apply last_Some_elem_of, list_elem_of_filter in Hlast as [Hc _].
      exact Hc.
    + apply last_None in Hlast. rewrite Hlast in Hd.
      by apply elem_of_nil in Hd.
Qed.

Lemma detectedKeyword_scan (transcript : string) :
  detectedKeyword transcript = scan emergencyKeywords transcript.
Proof. reflexivity. Qed.

(** X12: the spotter finds nothing exactly when the transcript contains
    none of the keywords of the table. *)
Theorem detectedKeyword_none_iff_silent (transcript : string) :
  detectedKeyword transcript = None
  <-> Inv.silent emergencyKeywords transcript.
Proof. rewrite detectedKeyword_scan. apply scan_none. Qed.

Lemma detectedKeyword_none_iff_silent_witness :
  detectedKeyword "all is quiet here" = None.
Proof.
  apply (proj2 (detectedKeyword_none_iff_silent "all is quiet here")).
  unfold Inv.silent, emergencyKeywords. repeat constructor.
Defined.

(** X13: what the spotter reports is an entry of the table, with its own
    service, number and severity, and its keyword occurs in the
    transcript. *)
Theorem detectedKeyword_sound (transcript : string) (d : Detected) :
  detectedKeyword transcript = Some d ->
  (keyword d, info d) ∈ emergencyKeywords
  /\ includes transcript (keyword d) = true.
Proof.
  intros H.
  rewrite detectedKeyword_scan in H.
  apply (proj1 (candidates_elem emergencyKeywords transcript d)).
  apply scan_elem. exact H.
Qed.

Lemma detectedKeyword_sound_witness :
  ("police", mkInfo "Police" "100" high) ∈ emergencyKeywords
  /\ includes "call the police" "police" = true.
Proof.
  apply (detectedKeyword_sound "call the police"
           (mkDetected "police" (mkInfo "Police" "100" high))).
  vm_compute; reflexivity.
Defined.

(** X14: the spotter reports an entry of severity critical exactly when
    the transcript contains a keyword of severity critical: a critical
    keyword is never hidden by the other keywords around it. *)
Theorem detectedKeyword_critical_iff_alarming (transcript : string) :
  (exists d : Detected,
     detectedKeyword transcript = Some d /\ severity (info d) = critical)
  <-> Inv.alarming emergencyKeywords transcript.
Proof.
  rewrite <- scan_critical. split.
  - intros (d & Hd & Hc). rewrite detectedKeyword_scan in Hd. eauto.
  - intros (d & Hd & Hc). exists d. rewrite detectedKeyword_scan. auto.
Qed.

Lemma detectedKeyword_critical_iff_alarming_witness :
  exists d : Detected,
    detectedKeyword "help there was an accident" = Some d
    /\ severity (info d) = critical.
Proof.
  apply (proj2 (detectedKeyword_critical_iff_alarming
                  "help there was an accident")).
  unfold Inv.alarming, emergencyKeywords.
  do 7 apply Exists_cons_tl. apply Exists_cons_hd.
  split; reflexivity.
Defined.

(** X15: a detection is never lost when the transcript grows: with text
    before or after it, something is still detected, and a critical
    detection stays critical. *)
Theorem detection_survives_longer_transcript
    (transcript before after : string) (d : Detected) :
  detectedKeyword transcript = Some d ->
  exists d' : Detected,
    detectedKeyword (before +:+ transcript +:+ after) = Some d'
    /\ (severity (info d) = critical -> severity (info d') = critical).
Proof.
  intros Hd. rewrite detectedKeyword_scan in Hd.
  rewrite detectedKeyword_scan.
  assert (Hgrow : forall k, includes transcript k = true ->
            includes (before +:+ transcript +:+ after) k = true).
  { intros k Hk. apply includes_app_r, includes_app_l, Hk. }
  destruct (decide (severity (info d) = critical)) as [Hc|Hc].
  - assert (Ha : Inv.alarming emergencyKeywords transcript).
    { apply scan_critical. exists d. auto. }
    assert (Ha' : Inv.alarming emergencyKeywords
                    (before +:+ transcript +:+ after)).
    { unfold Inv.alarming in *. eapply Exists_impl; [exact Ha|].
      intros [k i] [Hk Hi]. cbn [fst snd] in Hk, Hi |- *. auto. }
    apply scan_critical in Ha' as (d' & Hd' & Hc').
    exists d'. auto.
  - destruct (scan emergencyKeywords (before +:+ transcript +:+ after))
      as [d'|] eqn:Hd'.
    + exists d'. split; [reflexivity|]. intros Hcrit. contradiction.
    + exfalso. apply scan_none in Hd'. unfold Inv.silent in Hd'.
      rewrite Forall_forall in Hd'.
      apply scan_elem, candidates_elem in Hd as [Hin Hinc].
      specialize (Hd' _ Hin). cbn in Hd'.
      rewrite (Hgrow _ Hinc) in Hd'. discriminate.
Qed.

Lemma detection_survives_longer_transcript_witness :
  exists d' : Detected,
    detectedKeyword ("please " +:+ "fire" +:+ " in the kitchen") = Some d'
    /\ (critical = critical -> severity (info d') = critical).
Proof.
  apply (detection_survives_longer_transcript "fire" "please "
           " in the kitchen"
           (mkDetected "fire" (mkInfo "Fire Department" "101" critical))).
  vm_compute; reflexivity.
Defined.

(** X16: what [processVoiceTranscript] does to the log.  It returns the
    spotter's answer; it schedules the SOS flow exactly when the transcript
    contains a critical keyword; a transcript without keywords leaves the
    log untouched; any other transcript appends exactly one report, of type
    Voice, whose id is the clock reading in decimal and whose message names
    the detected keyword. *)
Theorem processVoiceTranscript_effect (e : Reports.Env)
    (transcript : string) (reports : list Reports.EmergencyReport) :
  let '(detected, log, sos) := processVoiceTranscript e transcript reports in
  detected = detectedKeyword transcript
  /\ (sos = true <-> Inv.alarming emergencyKeywords transcript)
  /\ (Inv.silent emergencyKeywords transcript -> log = reports)
  /\ (~ Inv.silent emergencyKeywords transcript ->
      exists (d : Detected) (r : Reports.EmergencyReport),
        detected = Some d
        /\ log = reports ++ [r]
        /\ Reports.type r = Reports.Voice
        /\ Reports.id r = toString (Reports.dateNow e)
        /\ includes (Reports.message r) (keyword d) = true).
Proof.
  unfold processVoiceTranscript. rewrite detectedKeyword_scan.
  destruct (scan emergencyKeywords transcript) as [d|] eqn:Hd.
  - split; [reflexivity|]. split; [|split].
    + rewrite bool_decide_eq_true. rewrite <- scan_critical. split.
      * intros Hc. exists d. auto.
      * intros (d' & Hd' & Hc). congruence.
    + intros Hs. apply scan_none in Hs. congruence.
    + intros _. eexists d, _. split; [reflexivity|].
      cbn [Reports.createReport snd]. split; [reflexivity|].
      do 2 (split; [reflexivity|]).
      cbn [Reports.message]. unfold voiceMessage. apply includes_app_r.
      change (String "034"%char (keyword d)
              +:+ String "034"%char (" - " +:+ service (info d)))
        with (String "034"%char
                (keyword d
                 +:+ String "034"%char (" - " +:+ service (info d)))).
      apply (includes_app_r (String "034"%char "")).
      apply includes_app_l, includes_refl.
  - split; [reflexivity|]. split; [|split].
    + split; [discriminate|]. intros Ha.
      apply scan_critical in Ha as (d & Hd' & _). congruence.
    + reflexivity.
    + intros Hs. exfalso. apply Hs. apply scan_none. exact Hd.
Qed.

Lemma processVoiceTranscript_effect_witness :
  let '(detected, log, sos) :=
    processVoiceTranscript Samples.offline "fire" [] in
  detected = detectedKeyword "fire"
  /\ (sos = true <-> Inv.alarming emergencyKeywords "fire").
Proof.
  pose proof (processVoiceTranscript_effect Samples.offline "fire" []) as H.
  destruct (processVoiceTranscript Samples.offline "fire" [])
    as [[detected log] sos].
  destruct H as (H1 & H2 & _). split; [exact H1|exact H2].
Defined.

(** X17: the fallback [processVoiceData] always files a report: each of
    the six keywords it can draw is detected as itself, so the log grows by
    one Voice report; the SOS flow is scheduled exactly for the draws fire
    and ambulance.  An index past the array would throw. *)
Theorem processVoiceData_always_reports (e : Reports.Env) (drawn : nat)
    (reports : list Reports.EmergencyReport) :
  ((drawn < 6)%nat ->
   exists (k : string) (d : Detected) (r : Reports.EmergencyReport),
     fallbackKeywords !! drawn = Some k
     /\ keyword d = k
     /\ Reports.type r = Reports.Voice
     /\ processVoiceData e drawn reports
        = Some (Some d, reports ++ [r],
                bool_decide (drawn = 2%nat \/ drawn = 4%nat)))
  /\ ((6 <= drawn)%nat -> processVoiceData e drawn reports = None).
Proof.
  split.
  - intros Hlt.
    do 6 (destruct drawn as [|drawn];
          [eexists _, _, _; split; [reflexivity|];
           split; [|split]; [ | |lazy; reflexivity]; reflexivity|]).
    lia.
  - intros Hge. unfold processVoiceData.
    do 6 (destruct drawn as [|drawn]; [lia|]). reflexivity.
Qed.

Lemma processVoiceData_always_reports_witness :
  exists (k : string) (d : Detected) (r : Reports.EmergencyReport),
    fallbackKeywords !! 4%nat = Some k
    /\ keyword d = k
    /\ Reports.type r = Reports.Voice
    /\ processVoiceData Samples.online 4 []
       = Some (Some d, [] ++ [r], bool_decide (4%nat = 2%nat \/ 4%nat = 4%nat)).
Proof.
  apply (proj1 (processVoiceData_always_reports Samples.online 4 [])). lia.
Defined.

End VoiceMore.

(* ===================================================================== *)
(** ** More on the report log and on the history entries *)
(* ===================================================================== *)

Section LogMore.

Import Js Reports.

Lemma run_reportOf (calls : list Call) (reports : list EmergencyReport) :
  run calls reports = reports ++ (Inv.reportOf <$> calls).
Proof.
  revert reports. induction calls as [|c calls IH]; intros reports.
  - cbn. rewrite app_nil_r. reflexivity.
  - unfold run in *. cbn [foldl]. rewrite IH.
    unfold append, Inv.reportOf. cbn [createReport fst snd].
    rewrite <- app_assoc. reflexivity.
Qed.

(** X18: the log is append-only and a report does not depend on the log it
    joins: after any sequence of calls the log is the earlier log followed
    by one report per call, in call order, each with the kind and message
    of its call and the status of the connectivity flag of its call. *)
Theorem run_appends_one_report_per_call
    (calls : list Call) (reports : list EmergencyReport) :
  run calls reports = reports ++ (Inv.reportOf <$> calls)
  /\ length (run calls reports) = (length reports + length calls)%nat
  /\ (fun r => (type r, message r, status r)) <$> (Inv.reportOf <$> calls)
     = (fun c => (kind c, text c,
                  if isOnline (env c) then sent else pending)) <$> calls
  /\ forall (c : Call) (log : list EmergencyReport),
       createReport (env c) (kind c) (text c) log
       = (Inv.reportOf c, log ++ [Inv.reportOf c]).
Proof.
  split; [apply run_reportOf|]. split; [|split].
  - rewrite run_reportOf, length_app, length_fmap. reflexivity.
  - rewrite <- list_fmap_compose. reflexivity.
  - intros c log. reflexivity.
Qed.

(** X19: a transcript with a critical keyword, followed by the SOS flow it
    schedules, adds exactly two reports to the log: the Voice report, then
    the SOS report. *)
Theorem critical_transcript_then_sos (e1 e2 : Env) (transcript : string)
    (reports : list EmergencyReport) :
  Inv.alarming Voice.emergencyKeywords transcript ->
  let '(_, log, sos) := Voice.processVoiceTranscript e1 transcript reports in
  sos = true
  /\ type <$> handleSOS e2 log = (type <$> reports) ++ [Voice; SOS]
  /\ message <$> drop (S (length reports)) (handleSOS e2 log)
     = ["Emergency SOS activated"].
Proof.
  intros Ha. apply scan_critical in Ha as (d & Hd & Hc).
  unfold Voice.processVoiceTranscript. rewrite detectedKeyword_scan, Hd.
  split; [by apply bool_decide_eq_true_2|].
  unfold handleSOS. cbn [createReport snd]. split.
  - rewrite !fmap_app, <- app_assoc. reflexivity.
  - rewrite <- app_assoc.
    change (S (length reports)) with (1 + length reports)%nat.
    rewrite Nat.add_comm, <- drop_drop, drop_app_length. reflexivity.
Qed.

Lemma critical_transcript_then_sos_witness :
  let '(_, log, sos) :=
    Voice.processVoiceTranscript Samples.offline "fire" [] in
  sos = true
  /\ type <$> handleSOS Samples.online log = [] ++ [Voice; SOS]
  /\ message <$> drop 1 (handleSOS Samples.online log)
     = ["Emergency SOS activated"].
Proof.
  apply (critical_transcript_then_sos Samples.offline Samples.online
           "fire" []).
  unfold Inv.alarming, Voice.emergencyKeywords.
  do 2 apply Exists_cons_tl. apply Exists_cons_hd. split; reflexivity.
Defined.

End LogMore.

Section EntriesMore.

Import Js Classifier Session.
Local Open Scope float_scope.

Lemma recognized_bounds (hand : list HandLandmarks) (g : Recognized) :
  recognizeGesture hand = Some g ->
  (0.85 <=? Classifier.confidence g) = true
  /\ (Classifier.confidence g <=? 0.95) = true.
Proof.
  intros H. destruct g as [ty c]. cbn [Classifier.confidence].
  by_outcome H ltac:(split; vm_compute; reflexivity).
Qed.

Lemma onHand_wellFormed (m : Mode) (st : State.t)
    (hand : list HandLandmarks * Z * Z) :
  Forall Inv.wellFormed (State.history st) ->
  Forall Inv.wellFormed (State.history (onHand m st hand)).
Proof.
  intros Hst. destruct hand as [[landmarks created] now]. unfold onHand.
  destruct (recognizeGesture landmarks) as [g|] eqn:Hg; [|exact Hst].
  destruct (getCurrentGestures m !! Classifier.type g) as [label|] eqn:Hl;
    [|exact Hst].
  destruct (truthy label && (0.7 <? Classifier.confidence g)); [|exact Hst].
  cbn. unfold historyUpdater.
  assert (Hnew : Inv.wellFormed
            (mkGestureData label (Classifier.confidence g) created m)).
  { split; [|exact (recognized_bounds _ _ Hg)].
    split; [reflexivity|]. exists (Classifier.type g). exact Hl. }
  destruct (last (State.history st)) as [e|];
    [destruct (String.eqb (gesture e) label && (now - timestamp e <? 1000)%Z);
     [exact Hst|]|];
    apply Forall_app; split; auto.
Qed.

Lemma step_wellFormed (st : State.t) (ev : Event) :
  Forall Inv.wellFormed (State.history st) ->
  Forall Inv.wellFormed (State.history (step st ev)).
Proof.
  intros Hst. destruct ev as [held [hands|]|m| |]; cbn [step].
  - cbn. revert st Hst. induction hands as [|hand hands IH]; intros st Hst;
      [exact Hst|].
    cbn [foldl]. apply IH, onHand_wellFormed, Hst.
  - exact Hst.
  - exact Hst.
  - constructor.
  - exact Hst.
Qed.

(** X20: whatever frames arrive and whatever buttons are used, every
    history entry records a label of the table of its own mode and a
    confidence between 0.85 and 0.95; a mode switch never leaves an entry
    with a label foreign to the mode it records. *)
Theorem history_entries_well_formed (evs : list Event) :
  Forall Inv.wellFormed (State.history (runEvents evs initial)).
Proof.
  unfold runEvents.
  assert (H0 : Forall Inv.wellFormed (State.history initial)) by constructor.
  revert H0. generalize initial.
  induction evs as [|ev evs IH]; intros st Hst; [exact Hst|].
  cbn [foldl]. apply IH, step_wellFormed, Hst.
Qed.

End EntriesMore.

(* ===================================================================== *)
(** ** The handler the detector calls *)
(* ===================================================================== *)

Section ComponentFacts.

Import Session Component.
Local Open Scope float_scope.

(** What stays true of the component: [initializeHands] still gives the
    first render's handler, the handler in place is that one, and the
    history was made by it. *)
Lemma act_keeps_first_handler (c : Component.t) (a : Action) :
  initializeHandsGives (closures c) = alphabet ->
  (registered c = None \/ registered c = Some alphabet) ->
  Forall (Spec.madeIn alphabet) (State.history (state c)) ->
  initializeHandsGives (closures (act c a)) = alphabet
  /\ (registered (act c a) = None \/ registered (act c a) = Some alphabet)
  /\ Forall (Spec.madeIn alphabet) (State.history (state (act c a))).
Proof.
  intros Hgive Hreg Hhist. destruct a as [m| | | |frame]; cbn [act].
  - split; [exact Hgive|]. split; [exact Hreg|exact Hhist].
  - split; [exact Hgive|]. split; [|exact Hhist].
    right. cbn. rewrite Hgive. reflexivity.
  - split; [exact Hgive|]. split; [exact Hreg|exact Hhist].
  - split; [exact Hgive|]. split; [exact Hreg|]. cbn. constructor.
  - destruct (registered c) as [held|] eqn:Hheld;
      [|rewrite Hheld; repeat split; auto].
    destruct Hreg as [Hreg|Hreg]; [discriminate|]. injection Hreg as ->.
    cbn. rewrite Hheld. split; [exact Hgive|]. split; [auto|].
    destruct (onResults_extends alphabet frame (state c))
      as (_ & added & -> & Hadded).
    apply Forall_app. auto.
Qed.

Lemma run_keeps_first_handler (actions : list Action) :
  initializeHandsGives (closures (runActions actions mount)) = alphabet
  /\ (registered (runActions actions mount) = None
      \/ registered (runActions actions mount) = Some alphabet)
  /\ Forall (Spec.madeIn alphabet)
       (State.history (state (runActions actions mount))).
Proof.
  unfold runActions.
  assert (H0 : initializeHandsGives (closures mount) = alphabet
               /\ (registered mount = None \/ registered mount = Some alphabet)
               /\ Forall (Spec.madeIn alphabet) (State.history (state mount))).
  { cbn. repeat split; auto. }
  revert H0. generalize mount.
  induction actions as [|a actions IH]; intros c Hc; [exact Hc|].
  cbn [foldl]. apply IH. destruct Hc as (H1 & H2 & H3).
  apply act_keeps_first_handler; assumption.
Qed.

(** C7: switching the mode leaves every history entry as it is, but the
    later classifications do not use the new table.  The handler the
    detector calls is the one [initializeHands] registered, and whatever
    the buttons pressed it is the first render's, which holds mode
    alphabet: with the camera started and Word Mode selected, a closed
    fist is recorded as B in mode alphabet, where the word table says
    NO. *)
Theorem C7_registered_handler_keeps_alphabet :
  (forall (c : Component.t) (m : Mode),
     State.history (state (act c (ClickMode m))) = State.history (state c))
  /\ (forall actions : list Action,
        registered (runActions actions mount) = None
        \/ registered (runActions actions mount) = Some alphabet)
  /\ (let c :=
        runActions
          [ClickStart; ClickMode word;
           Results (Some [(Samples.fistInside, 10%Z, 10%Z)])] mount in
      State.mode (state c) = word
      /\ State.history (state c) = [mkGestureData "B" 0.95 10%Z alphabet]
      /\ getCurrentGestures word !! "fist" = Some "NO").
Proof.
  split; [reflexivity|]. split.
  - intros actions. exact (proj1 (proj2 (run_keeps_first_handler actions))).
  - vm_compute. repeat split; reflexivity.
Qed.

(** X3: in the running component the word table is never used for
    recording: whatever buttons are pressed and whatever frames arrive,
    every history entry records mode alphabet and a label of the alphabet
    table, also while Word Mode is selected. *)
Theorem component_history_is_alphabet (actions : list Action) :
  Forall (Spec.madeIn alphabet)
    (State.history (state (runActions actions mount))).
Proof. exact (proj2 (proj2 (run_keeps_first_handler actions))). Qed.

End ComponentFacts.

(* ===================================================================== *)
(** ** The status of a report and the render that made it *)
(* ===================================================================== *)

Section PageFacts.

Import Page.

(** C8: the status of a report is sent or pending by the [isOnline] of the
    render whose [createReport] runs.  For the SOS button that is the
    connectivity flag at creation.  For a voice report it is the flag as
    it was when recording was started: started online, with the page gone
    offline since, a transcript with a keyword files a Voice report with
    status sent while the flag is false. *)
Theorem C8_voice_report_status_is_stale
    (saved : list Reports.EmergencyReport) (dateNow newDate : Z) :
  (forall (p : Page.t) (dn nd : Z),
     exists r : Reports.EmergencyReport,
       reports (act p (ClickSOS dn nd)) = reports p ++ [r]
       /\ Reports.type r = Reports.SOS
       /\ Reports.status r
          = (if isOnline p then Reports.sent else Reports.pending))
  /\ (let p :=
        runActions
          [ClickRecord; GoOffline; SpeechResult "fire" dateNow newDate]
          (mount true saved) in
      isOnline p = false
      /\ exists r : Reports.EmergencyReport,
           reports p = saved ++ [r]
           /\ Reports.type r = Reports.Voice
           /\ Reports.status r = Reports.sent).
Proof.
  split.
  - intros p dn nd. eexists. cbn. repeat split; reflexivity.
  - cbv zeta. unfold runActions. cbn [foldl act mount recognition current
      isOnline location reports timers].
    unfold Voice.processVoiceTranscript.
    rewrite detectedKeyword_scan.
    replace (Voice.scan Voice.emergencyKeywords "fire")
      with (Some (Voice.mkDetected "fire"
                    (Voice.mkInfo "Fire Department" "101" Voice.critical)))
      by (vm_compute; reflexivity).
    cbn. split; [reflexivity|]. eexists. repeat split; reflexivity.
Qed.

End PageFacts.
